(** * maubot-plane: the Plane webhook plugin, embedded and verified

    A shallow embedding of [plane/utils.py] and [plane/plugin.py].

    - Python values that [json.loads] can produce are the type [json].
    - Python strings are Rocq strings; a character stands for a code point
      below 256, and [strip], [lower] and [repr] follow Python on that range.
    - Code that can raise lives in the [result] monad; code that logs or
      sends lives in the [act] monad, which also records a trace of events.
    - Library calls the plugin makes on its collaborators (the JSON codec and
      the Matrix client) are the fields of a [Runtime].  HMAC-SHA256 is
      written out, after FIPS 180-4 and RFC 2104. *)

From Stdlib Require Import ZArith NArith List String Ascii Bool Lia.
From Stdlib Require Import DecimalString.
Import ListNotations.
Open Scope string_scope.
Set Warnings "-register-all".

(** ** Exceptions and the [result] monad *)

Inductive exn : Type :=
| KeyError
| IndexError
| TypeError
| AttributeError
| JSONDecodeError
| UnicodeDecodeError.

Inductive result (A : Type) : Type :=
| Ok (a : A)
| Raise (e : exn).
Arguments Ok {A} a.
Arguments Raise {A} e.

Definition bind {A B : Type} (c : result A) (k : A -> result B) : result B :=
  match c with
  | Ok a => k a
  | Raise e => Raise e
  end.

Declare Scope result_scope.
Delimit Scope result_scope with result.
Notation "x <- c ;; k" := (bind c (fun x => k))
  (at level 61, c at next level, right associativity) : result_scope.

(** ** Python strings *)

Definition code (c : ascii) : N := N_of_ascii c.

Definition in_range (lo hi : N) (c : ascii) : bool :=
  ((lo <=? code c) && (code c <=? hi))%N.

(** [str.isspace] on one character: TAB..CR, FS..US, SPACE, NEL, NBSP. *)
Definition is_space (c : ascii) : bool :=
  in_range 9 13 c || in_range 28 32 c || (code c =? 133)%N || (code c =? 160)%N.

Fixpoint lstrip (s : string) : string :=
  match s with
  | EmptyString => EmptyString
  | String c r => if is_space c then lstrip r else s
  end.

Fixpoint rstrip (s : string) : string :=
  match s with
  | EmptyString => EmptyString
  | String c r =>
      match rstrip r with
      | EmptyString => if is_space c then EmptyString else String c EmptyString
      | r' => String c r'
      end
  end.

(** [s.strip()] *)
Definition strip (s : string) : string := rstrip (lstrip s).

(** [str.lower] on one character: A..Z and the upper-case letters of
    U+00C0..U+00DE (all but the multiplication sign) move up by 32. *)
Definition lower_char (c : ascii) : ascii :=
  if in_range 65 90 c || (in_range 192 222 c && negb (code c =? 215)%N)
  then ascii_of_N (code c + 32)
  else c.

Fixpoint lower (s : string) : string :=
  match s with
  | EmptyString => EmptyString
  | String c r => String (lower_char c) (lower r)
  end.

(** [s.split(sep)] for a separator of one character. *)
Fixpoint split (sep : ascii) (s : string) : list string :=
  match s with
  | EmptyString => [EmptyString]
  | String c r =>
      if Ascii.eqb c sep then EmptyString :: split sep r
      else match split sep r with
           | h :: t => String c h :: t
           | [] => [String c EmptyString]
           end
  end.

(** [sep.join(parts)] *)
Fixpoint join (sep : string) (parts : list string) : string :=
  match parts with
  | [] => ""
  | [p] => p
  | p :: rest => p ++ sep ++ join sep rest
  end.

(** [needle in s] for strings *)
Fixpoint contains (needle s : string) : bool :=
  String.prefix needle s ||
  match s with
  | EmptyString => false
  | String _ r => contains needle r
  end.

Fixpoint mem_char (c : ascii) (s : string) : bool :=
  match s with
  | EmptyString => false
  | String d r => Ascii.eqb c d || mem_char c r
  end.

(** Truthiness of a string: [bool(s)]. *)
Definition nonempty (s : string) : bool :=
  match s with EmptyString => false | _ => true end.

(** [s.isascii()] *)
Fixpoint isascii (s : string) : bool :=
  match s with
  | EmptyString => true
  | String c r => (code c <? 128)%N && isascii r
  end.

Definition hex_digit (n : N) : ascii :=
  match String.get (N.to_nat n) "0123456789abcdef" with
  | Some c => c
  | None => "0"%char
  end.

Definition hex2 (n : N) : string :=
  String (hex_digit (n / 16)) (String (hex_digit (n mod 16)) EmptyString).

(** [repr(s)] for a string: the quote is the single quote, unless the text
    holds a single quote and no double quote; backslash and the quote are
    escaped, TAB, LF and CR have their letters, and what [str.isprintable]
    refuses is written as a hexadecimal escape. *)
Definition printable (c : ascii) : bool :=
  in_range 32 126 c || (in_range 161 255 c && negb (code c =? 173)%N).

Definition repr_char (quote c : ascii) : string :=
  let bs := "\"%char in
  if Ascii.eqb c quote || Ascii.eqb c bs then String bs (String c "")
  else if (code c =? 9)%N then "\t"
  else if (code c =? 10)%N then "\n"
  else if (code c =? 13)%N then "\r"
  else if printable c then String c ""
  else "\x" ++ hex2 (code c).

Definition repr_str (s : string) : string :=
  let sq := "'"%char in
  let dq := ascii_of_N 34 in
  let quote := if mem_char sq s && negb (mem_char dq s) then dq else sq in
  String quote
    (concat "" (map (repr_char quote) (list_ascii_of_string s))
     ++ String quote "").

(** [str(n)] for an integer. *)
Definition str_of_Z (z : Z) : string := NilZero.string_of_int (Z.to_int z).

(** ** Parsed JSON

    What [json.loads] builds.  A dict is its items in insertion order, and
    [dict_get] reads the first item of a key.  The plugin only ever prints a
    float, so a float is kept as the text Python prints for it. *)

Inductive json : Type :=
| JNull
| JBool (b : bool)
| JInt (z : Z)
| JFloat (text : string)
| JStr (s : string)
| JList (l : list json)
| JDict (d : list (string * json)).

Fixpoint dict_get (d : list (string * json)) (key : string) : option json :=
  match d with
  | [] => None
  | (k, v) :: rest => if String.eqb key k then Some v else dict_get rest key
  end.

(** [key in d] *)
Definition dict_has (d : list (string * json)) (key : string) : bool :=
  match dict_get d key with Some _ => true | None => false end.

(** [d[key]] *)
Definition dict_getitem (d : list (string * json)) (key : string) : result json :=
  match dict_get d key with
  | Some v => Ok v
  | None => Raise KeyError
  end.

(** [l[i]] for a non-negative index *)
Definition list_getitem {A : Type} (l : list A) (i : nat) : result A :=
  match nth_error l i with
  | Some v => Ok v
  | None => Raise IndexError
  end.

Fixpoint py_repr (v : json) : string :=
  match v with
  | JNull => "None"
  | JBool true => "True"
  | JBool false => "False"
  | JInt z => str_of_Z z
  | JFloat text => text
  | JStr s => repr_str s
  | JList l => "[" ++ join ", " (map py_repr l) ++ "]"
  | JDict d =>
      "{" ++ join ", "
               (map (fun kv => match kv with
                               | (k, x) => repr_str k ++ ": " ++ py_repr x
                               end) d)
          ++ "}"
  end.

(** [str(v)] *)
Definition py_str (v : json) : string :=
  match v with
  | JStr s => s
  | _ => py_repr v
  end.

(** The classes [isinstance] is asked about. *)
Inductive pytype : Type := TBool | TInt | TFloat | TStr | TList | TDict.

(** [isinstance(v, t)]; [bool] is a subclass of [int]. *)
Definition isinstance (v : json) (t : pytype) : bool :=
  match t, v with
  | TBool, JBool _ => true
  | TInt, JInt _ => true
  | TInt, JBool _ => true
  | TFloat, JFloat _ => true
  | TStr, JStr _ => true
  | TList, JList _ => true
  | TDict, JDict _ => true
  | _, _ => false
  end.

(** ** Bytes *)

Definition bytes : Type := list Byte.byte.

Definition byte_of_N (n : N) : Byte.byte :=
  match Byte.of_N (n mod 256) with
  | Some b => b
  | None => Byte.x00
  end.

(** [s.encode("utf-8")] for code points below 256: one byte below 128, two
    bytes from there on. *)
Fixpoint encode_utf8 (s : string) : bytes :=
  match s with
  | EmptyString => []
  | String c r =>
      ((if (code c <? 128)%N then [byte_of_N (code c)]
        else [byte_of_N (192 + code c / 64); byte_of_N (128 + code c mod 64)])
       ++ encode_utf8 r)%list
  end.

(** [data.hex()] *)
Definition hex (data : bytes) : string :=
  concat "" (map (fun b => hex2 (Byte.to_N b)) data).

(** ** HMAC-SHA256

    [hashlib.sha256] after FIPS 180-4 and [hmac.new(key, msg, sha256)] after
    RFC 2104, on 32-bit words kept in [N]. *)

Module Sha256.
Local Open Scope N_scope.
Local Open Scope list_scope.

Definition add32 (a b : N) : N := (a + b) mod 2 ^ 32.
Definition rotr (n x : N) : N :=
  N.lor (N.shiftr x n) (N.shiftl x (32 - n) mod 2 ^ 32).
Definition shr (n x : N) : N := N.shiftr x n.
Definition not32 (x : N) : N := N.lxor x 0xffffffff.

Definition Ch (x y z : N) : N := N.lxor (N.land x y) (N.land (not32 x) z).
Definition Maj (x y z : N) : N :=
  N.lxor (N.lxor (N.land x y) (N.land x z)) (N.land y z).
Definition Sigma0 (x : N) : N := N.lxor (N.lxor (rotr 2 x) (rotr 13 x)) (rotr 22 x).
Definition Sigma1 (x : N) : N := N.lxor (N.lxor (rotr 6 x) (rotr 11 x)) (rotr 25 x).
Definition sigma0 (x : N) : N := N.lxor (N.lxor (rotr 7 x) (rotr 18 x)) (shr 3 x).
Definition sigma1 (x : N) : N := N.lxor (N.lxor (rotr 17 x) (rotr 19 x)) (shr 10 x).

(** The constants are derived as the standard derives them, from the first
    primes: the first 32 bits of the fractional part of a root. *)
Definition is_prime (n : nat) : bool :=
  forallb (fun divisor => negb (n mod divisor =? 0)%nat) (seq 2 (n - 2)).

Definition primes (count : nat) : list N :=
  map N.of_nat (firstn count (filter is_prime (seq 2 310))).

(** The integer part of the [k]-th root of [n], one bit at a time. *)
Fixpoint root_bits (k n : N) (bit : nat) (r : N) : N :=
  let r' := r + 2 ^ N.of_nat bit in
  let r := if r' ^ k <=? n then r' else r in
  match bit with
  | O => r
  | S lower => root_bits k n lower r
  end.

Definition fractional_root (k p : N) : N :=
  root_bits k (p * 2 ^ (32 * k)) 40 0 mod 2 ^ 32.

Definition K : list N := map (fractional_root 3) (primes 64).

(** The eight working variables, and the hash value between blocks. *)
Record state : Type := State { a : N; b : N; c : N; d : N; e : N; f : N; g : N; h : N }.

Definition H0 : state :=
  match map (fractional_root 2) (primes 8) with
  | [h0; h1; h2; h3; h4; h5; h6; h7] => State h0 h1 h2 h3 h4 h5 h6 h7
  | _ => State 0 0 0 0 0 0 0 0
  end.

Definition be32 (w : N) : bytes :=
  [ byte_of_N (w / 2 ^ 24); byte_of_N (w / 2 ^ 16); byte_of_N (w / 2 ^ 8); byte_of_N w ].

Definition be64 (w : N) : bytes := be32 (w / 2 ^ 32) ++ be32 w.

Fixpoint words (data : bytes) : list N :=
  match data with
  | b3 :: b2 :: b1 :: b0 :: rest =>
      (Byte.to_N b3 * 2 ^ 24 + Byte.to_N b2 * 2 ^ 16 + Byte.to_N b1 * 2 ^ 8 + Byte.to_N b0)
      :: words rest
  | _ => []
  end.

(** Padding: one 1 bit, zeros up to 56 modulo 64 bytes, the bit length. *)
Definition pad (msg : bytes) : bytes :=
  let len := N.of_nat (List.length msg) in
  let zeros := (64 + 55 - len mod 64) mod 64 in
  msg ++ [Byte.x80] ++ repeat Byte.x00 (N.to_nat zeros) ++ be64 (8 * len).

(** The message schedule: sixteen words of the block, then forty-eight more. *)
Fixpoint schedule (n : nat) (w : list N) : list N :=
  match n with
  | O => w
  | S n' =>
      let t := List.length w in
      let at_ (back : nat) := nth (t - back) w 0 in
      schedule n'
        (w ++ [add32 (add32 (sigma1 (at_ 2%nat)) (at_ 7%nat))
                     (add32 (sigma0 (at_ 15%nat)) (at_ 16%nat))])
  end.

Definition round (s : state) (kw : N * N) : state :=
  let t1 := add32 (add32 (add32 (h s) (Sigma1 (e s))) (Ch (e s) (f s) (g s)))
                  (add32 (fst kw) (snd kw)) in
  let t2 := add32 (Sigma0 (a s)) (Maj (a s) (b s) (c s)) in
  State (add32 t1 t2) (a s) (b s) (c s) (add32 (d s) t1) (e s) (f s) (g s).

Definition compress (hv : state) (block : list N) : state :=
  let s := fold_left round (combine K (schedule 48 block)) hv in
  State (add32 (a hv) (a s)) (add32 (b hv) (b s)) (add32 (c hv) (c s))
        (add32 (d hv) (d s)) (add32 (e hv) (e s)) (add32 (f hv) (f s))
        (add32 (g hv) (g s)) (add32 (h hv) (h s)).

(** The hash over the padded message, sixteen words at a time. *)
Fixpoint blocks (n : nat) (ws : list N) (hv : state) : state :=
  match n with
  | O => hv
  | S n' => blocks n' (skipn 16 ws) (compress hv (firstn 16 ws))
  end.

Definition digest_of (s : state) : bytes :=
  be32 (a s) ++ be32 (b s) ++ be32 (c s) ++ be32 (d s) ++
  be32 (e s) ++ be32 (f s) ++ be32 (g s) ++ be32 (h s).

Definition sha256 (msg : bytes) : bytes :=
  let ws := words (pad msg) in
  digest_of (blocks (List.length ws / 16) ws H0).

Definition xor_pad (p : N) (key : bytes) : bytes :=
  map (fun k => byte_of_N (N.lxor (Byte.to_N k) p)) key.

(** [hmac.new(key, msg, hashlib.sha256).digest()] *)
Definition hmac_sha256 (key msg : bytes) : bytes :=
  let key' := if (64 <? List.length key)%nat then sha256 key else key in
  let key64 := key' ++ repeat Byte.x00 (64 - List.length key') in
  sha256 (xor_pad 0x5c key64 ++ sha256 (xor_pad 0x36 key64 ++ msg)).

(** [hmac.new(key, msg, hashlib.sha256).hexdigest()] *)
Definition hexdigest (key msg : bytes) : string := hex (hmac_sha256 key msg).

End Sha256.

(** ** plane/utils.py *)

Module Utils.
Local Open Scope result_scope.

(** *** Signature verification *)

(** [hmac.compare_digest(a, b)] on two strings: it compares ASCII strings
    and raises [TypeError] when either holds another character. *)
Definition compare_digest (a b : string) : result bool :=
  if isascii a && isascii b then Ok (String.eqb a b) else Raise TypeError.

(** Truthiness of an [Optional[str]]: [None] and the empty string are false. *)
Definition truthy (o : option string) : bool :=
  match o with
  | Some s => nonempty s
  | None => false
  end.

(** [if not received_sig] rejects [None] and the empty string alike. *)
Definition verify_plane_signature
    (secret : string) (body : bytes) (received_sig : option string) : result bool :=
  match received_sig with
  | None => Ok false
  | Some sig =>
      if negb (nonempty sig) then Ok false
      else
        let expected_sig := Sha256.hexdigest (encode_utf8 secret) body in
        compare_digest expected_sig sig
  end.

(** *** Issue helpers *)

(** [expected_type]: a class, or a tuple of classes. *)
Inductive type_spec : Type :=
| Class (t : pytype)
| Classes (ts : list pytype).

Definition isinstance_of (v : json) (spec : type_spec) : bool :=
  match spec with
  | Class t => isinstance v t
  | Classes ts => existsb (isinstance v) ts
  end.

(** The loop of [_get_nested_value]: [inl tt] when a [return default] left
    it, [inr current] when the path ran out. *)
Fixpoint _get_nested_loop (current : json) (path : list string) : result (unit + json) :=
  match path with
  | [] => Ok (inr current)
  | key :: rest =>
      match current with
      | JDict d =>
          if negb (dict_has d key) then Ok (inl tt)
          else next <- dict_getitem d key ;; _get_nested_loop next rest
      | _ => Ok (inl tt)
      end
  end.

Definition _get_nested_value
    (payload : json) (path : list string)
    (expected_type : option type_spec) (default : json) : result json :=
  r <- _get_nested_loop payload path ;;
  match r with
  | inl tt => Ok default
  | inr current =>
      match expected_type with
      | Some spec => if negb (isinstance_of current spec) then Ok default else Ok current
      | None => Ok current
      end
  end.

(** A value typed [Optional[str]], read as such. *)
Definition optional_str (v : json) : option string :=
  match v with
  | JStr s => Some s
  | _ => None
  end.

Definition get_actor_value_from_payload (payload : json) (key : string)
  : result (option string) :=
  v <- _get_nested_value payload ["activity"; "actor"; key] (Some (Class TStr)) JNull ;;
  Ok (optional_str v).

Definition get_activity_value_from_payload (payload : json) (key : string)
  : result (option string) :=
  v <- _get_nested_value payload ["activity"; key] (Some (Class TStr)) JNull ;;
  Ok (optional_str v).

Definition get_data_value_from_payload (payload : json) (key : string)
  : result (option string) :=
  v <- _get_nested_value payload ["data"; key] (Some (Class TStr)) JNull ;;
  Ok (optional_str v).

(** [for x in v]: a list gives its items, a string its characters, a dict its
    keys; nothing else can be iterated. *)
Definition iterate (v : json) : result (list json) :=
  match v with
  | JList l => Ok l
  | JStr s => Ok (map (fun c => JStr (String c "")) (list_ascii_of_string s))
  | JDict d => Ok (map (fun kv => JStr (fst kv)) d)
  | _ => Raise TypeError
  end.

(** The comprehension the two assignee lists share:
    [[str(x[key]) for x in items if isinstance(x, dict) and key in x]]. *)
Fixpoint stringified (key : string) (items : list json) : result (list string) :=
  match items with
  | [] => Ok []
  | assignee :: rest =>
      match assignee with
      | JDict d =>
          if dict_has d key then
            v <- dict_getitem d key ;;
            tail <- stringified key rest ;;
            Ok (py_str v :: tail)
          else stringified key rest
      | _ => stringified key rest
      end
  end.

Definition get_assignee_name_list_from_payload (payload : json) : result (list string) :=
  assignees_raw <-
    _get_nested_value payload ["data"; "assignees"] (Some (Class TList)) (JList []) ;;
  items <- iterate assignees_raw ;;
  stringified "display_name" items.

Definition _get_assignee_id_list_from_payload (payload : json) : result (list string) :=
  assignees_raw <-
    _get_nested_value payload ["data"; "assignees"] (Some (Class TList)) (JList []) ;;
  items <- iterate assignees_raw ;;
  stringified "id" items.

Definition is_actor_sole_assignee (payload : json) : result bool :=
  assignee_ids <- _get_assignee_id_list_from_payload payload ;;
  actor_id <- get_actor_value_from_payload payload "id" ;;
  match actor_id with
  | None => Ok false
  | Some actor =>
      if negb (List.length assignee_ids =? 1)%nat then Ok false
      else first <- list_getitem assignee_ids 0 ;; Ok (String.eqb first actor)
  end.

(** Lines 221-225: the ids of a comma-separated string, trimmed, the empty
    ones dropped. *)
Definition split_ids (s : string) : list string :=
  map strip (filter (fun assignee_id => nonempty (strip assignee_id)) (split "," s)).

(** [o == s] for an [Optional[str]] and a string. *)
Definition eq_optional (o : option string) (s : string) : bool :=
  match o with
  | Some t => String.eqb t s
  | None => false
  end.

Definition was_non_actor_sole_assignee_removed (payload : json) : result bool :=
  field_changed <- get_activity_value_from_payload payload "field" ;;
  if negb (eq_optional field_changed "assignee_ids") then Ok false
  else
    current_assignee_ids <- _get_assignee_id_list_from_payload payload ;;
    match current_assignee_ids with
    | _ :: _ => Ok false
    | [] =>
        old_value <- get_activity_value_from_payload payload "old_value" ;;
        (* [old_value or []]: a non-empty string, or the empty list *)
        let previous_assignee_ids : string + list string :=
          match old_value with
          | Some s => if nonempty s then inl s else inr []
          | None => inr []
          end in
        let previous_assignee_ids : string + list string :=
          match previous_assignee_ids with
          | inl s => inr (split_ids s)
          | inr l => inr l
          end in
        match previous_assignee_ids with
        | inl _ => Ok false
        | inr previous =>
            if negb (List.length previous =? 1)%nat then Ok false
            else
              actor_id <- get_actor_value_from_payload payload "id" ;;
              previous_assignee_id <- list_getitem previous 0 ;;
              Ok (truthy actor_id && nonempty previous_assignee_id
                  && negb (eq_optional actor_id previous_assignee_id))
        end
    end.

(** How an f-string prints an [Optional[str]]. *)
Definition format_optional (o : option string) : string :=
  match o with
  | Some s => s
  | None => "None"
  end.

Definition generate_issue_url (payload : json) (workspace_base_url : string)
  : result string :=
  project_id <- get_data_value_from_payload payload "project" ;;
  issue_id <- get_data_value_from_payload payload "id" ;;
  Ok (workspace_base_url ++ "/projects/" ++ format_optional project_id
      ++ "/issues/" ++ format_optional issue_id).

Definition generate_comment_url (payload : json) (workspace_base_url : string)
  : result string :=
  project_id <- get_data_value_from_payload payload "project" ;;
  issue_id <- get_data_value_from_payload payload "issue" ;;
  comment_id <- get_data_value_from_payload payload "id" ;;
  Ok (workspace_base_url ++ "/projects/" ++ format_optional project_id
      ++ "/issues/" ++ format_optional issue_id
      ++ "/#comment-" ++ format_optional comment_id).

End Utils.

(** ** plane/plugin.py *)

Module Plugin.
Import Utils.

(** *** Collaborators *)

(** The plugin's settings, typed as the code annotates them.  The three read
    with [config.get(key, default)] may be unset.  A notified-fields setting
    that is present is a list of strings, as [list[str]] says; a setting
    that is present and null, or is not a container, at which the membership
    test of the third gate raises [TypeError], lies outside this type. *)
Record Config : Type := {
  room_id : string;
  secret : string;
  workspace_url : string;
  send_notification_with_no_assignees : option bool;
  send_notification_when_actor_is_sole_assignee : option bool;
  issue_updated_notification_fields : option (list string)
}.

(** [config.get(key, default)] *)
Definition config_get {A : Type} (setting : option A) (default : A) : A :=
  match setting with
  | Some v => v
  | None => default
  end.

(** The library calls of [webhook]: [json.loads(body.decode("utf-8"))],
    [json.dumps(payload, indent=4)], and [client.send_markdown], which
    answers [None] or the text of the exception it raised. *)
Record Runtime : Type := {
  json_loads : bytes -> result json;
  json_dumps : json -> string;
  send_markdown : string -> string -> string -> option string
}.

Record Request : Type := {
  body_bytes : bytes;
  x_plane_signature : option string
}.

(** [json_response(data, status=...)] *)
Record Response : Type := {
  data : list (string * string);
  status : Z
}.
Definition json_response (data : list (string * string)) (status : Z) : Response :=
  {| data := data; status := status |}.

(** *** Effects *)

Inductive level : Type := INFO | WARNING | ERROR.

(** What a request does to the outside: a line to the log, a message handed
    to the Matrix client. *)
Inductive event : Type :=
| Log (lv : level) (text : string)
| SendMarkdown (room message msgtype : string).

Definition act (A : Type) : Type := (list event * result A)%type.

Definition ret {A : Type} (a : A) : act A := ([], Ok a).

Definition abind {A B : Type} (m : act A) (k : A -> act B) : act B :=
  match m with
  | (t, Ok a) => let (t', r) := k a in ((t ++ t')%list, r)
  | (t, Raise e) => (t, Raise e)
  end.

Definition lift {A : Type} (r : result A) : act A := ([], r).
Definition log (lv : level) (text : string) : act unit := ([Log lv text], Ok tt).
Definition emit (ev : event) : act unit := ([ev], Ok tt).

Declare Scope act_scope.
Delimit Scope act_scope with act.
Notation "x <- c ;; k" := (abind c (fun x => k))
  (at level 61, c at next level, right associativity) : act_scope.
Notation "c ;; k" := (abind c (fun _ => k))
  (at level 61, right associativity) : act_scope.
Local Open Scope act_scope.

(** *** Handlers *)

Definition FIELD_CHANGED_RENAMING : list (string * string) :=
  [("target_date", "due date"); ("name", "title")].

(** [table.get(key, default)] *)
Fixpoint table_get (table : list (string * string)) (key default : string) : string :=
  match table with
  | [] => default
  | (k, v) :: rest => if String.eqb key k then v else table_get rest key default
  end.

(** [value or default] for an [Optional[str]] *)
Definition or_default (value : option string) (default : string) : string :=
  match value with
  | Some s => if nonempty s then s else default
  | None => default
  end.

(** [x in l] for a list of strings *)
Definition mem (x : string) (l : list string) : bool := existsb (String.eqb x) l.

Definition LF : string := String (ascii_of_N 10) "".

(** The three characters between the link and the field.  Two of them lie
    beyond U+00FF; they are kept as the bytes the source file holds. *)
Definition SEPARATOR : string := "â€”".

Definition handle_issue_updated (config : Config) (payload : json)
  : act (option string) :=
  assignee_ids <- lift (get_assignee_name_list_from_payload payload) ;;
  let assignees_empty := (List.length assignee_ids =? 0)%nat in
  actor_is_sole_assignee <- lift (is_actor_sole_assignee payload) ;;
  non_actor_sole_assignee_removed <- lift (was_non_actor_sole_assignee_removed payload) ;;
  let send_when_no_assignees :=
    config_get (send_notification_with_no_assignees config) false in
  let send_when_actor_is_sole_assignee :=
    config_get (send_notification_when_actor_is_sole_assignee config) false in
  if assignees_empty && negb non_actor_sole_assignee_removed
     && negb send_when_no_assignees
  then
    log INFO ("Assignee list is empty and send_notification_with_no_assignees is disabled; "
              ++ "no non-actor sole assignee was removed. Skipping notification.") ;;
    ret None
  else if actor_is_sole_assignee && negb send_when_actor_is_sole_assignee
  then
    log INFO ("Actor is the sole assignee and send_notification_when_actor_is_sole_assignee "
              ++ "is disabled. Skipping notification.") ;;
    ret None
  else
    field <- lift (get_activity_value_from_payload payload "field") ;;
    let field_changed_raw := or_default field "" in
    let field_changed := lower (strip field_changed_raw) in
    let fields := config_get (issue_updated_notification_fields config) [] in
    if negb (mem field_changed fields)
    then
      log INFO ("Updated field `" ++ field_changed
                ++ "` is not in issue_updated_notification_fields. "
                ++ "Skipping notification.") ;;
      ret None
    else
      log INFO "Issue updated event matches configuration. Building notification." ;;
      name <- lift (get_data_value_from_payload payload "name") ;;
      let issue_title := or_default name "Untitled" in
      display_name <- lift (get_actor_value_from_payload payload "display_name") ;;
      let actor_name := or_default display_name "Unknown user" in
      field <- lift (get_activity_value_from_payload payload "field") ;;
      let raw_field_changed := or_default field "Unknown field" in
      let display_field_changed :=
        table_get FIELD_CHANGED_RENAMING raw_field_changed raw_field_changed in
      old <- lift (get_activity_value_from_payload payload "old_value") ;;
      let old_value := or_default old "None" in
      new <- lift (get_activity_value_from_payload payload "new_value") ;;
      let new_value := or_default new "None" in
      issue_url <- lift (generate_issue_url payload (workspace_url config)) ;;
      ret (Some
        ("Task: **[" ++ issue_title ++ "](" ++ issue_url ++ ")** " ++ SEPARATOR
         ++ " **" ++ display_field_changed ++ "** updated by **" ++ actor_name
         ++ "**" ++ LF ++ LF
         ++ "- **New:** `" ++ new_value ++ "`" ++ LF
         ++ "- **Old:** `" ++ old_value ++ "`" ++ LF)).

Definition handle_issue_created (config : Config) (payload : json) : act string :=
  name <- lift (get_data_value_from_payload payload "name") ;;
  let issue_title := or_default name "Untitled" in
  display_name <- lift (get_actor_value_from_payload payload "display_name") ;;
  let actor_name := or_default display_name "Unknown user" in
  priority <- lift (get_data_value_from_payload payload "priority") ;;
  let priority := or_default priority "None" in
  target_date <- lift (get_data_value_from_payload payload "target_date") ;;
  let target_date := or_default target_date "None" in
  assignee_names <- lift (get_assignee_name_list_from_payload payload) ;;
  let assignee_display :=
    match assignee_names with
    | [] => "Unassigned"
    | _ => join ", " assignee_names
    end in
  issue_url <- lift (generate_issue_url payload (workspace_url config)) ;;
  ret ("**New task created** by **" ++ actor_name ++ "**" ++ LF ++ LF
       ++ "- **Title & Link:** [" ++ issue_title ++ "](" ++ issue_url ++ ")" ++ LF
       ++ "- **Priority:** " ++ priority ++ LF
       ++ "- **Due date:** " ++ target_date ++ LF
       ++ "- **Assignees:** " ++ assignee_display ++ LF).

Definition handle_issue_comment (config : Config) (payload : json) : act string :=
  comment_url <- lift (generate_comment_url payload (workspace_url config)) ;;
  ret ("[Comment event](" ++ comment_url ++ ")").

(** *** The webhook *)

(** [payload.get(key)]: only a dict has the method. *)
Definition py_get (payload : json) (key : string) : result json :=
  match payload with
  | JDict d =>
      match dict_get d key with
      | Some v => Ok v
      | None => Ok JNull
      end
  | _ => Raise AttributeError
  end.

(** [v == s] for a parsed value and a string *)
Definition eq_str (v : json) (s : string) : bool :=
  match v with
  | JStr t => String.eqb t s
  | _ => false
  end.

(** Lines 73-89: the message, chosen by event and action. *)
Definition route (config : Config) (payload : json) : act (option string) :=
  event_type <- lift (py_get payload "event") ;;
  action_type <- lift (py_get payload "action") ;;
  let message : option string := Some "test" in
  if eq_str event_type "issue" then
    message <-
      (if eq_str action_type "created" then
         log INFO "Issue created event" ;;
         m <- handle_issue_created config payload ;;
         ret (Some m)
       else ret message) ;;
    (if eq_str action_type "updated" then handle_issue_updated config payload
     else ret message)
  else if eq_str event_type "issue_comment" then
    (if eq_str action_type "created" then
       log INFO "Issue comment created event" ;;
       m <- handle_issue_comment config payload ;;
       ret (Some m)
     else ret message)
  else
    log INFO ("Unhandled Plane event_type=" ++ py_str event_type) ;;
    ret message.

(** Lines 91-120: nothing to send, or one attempt to send. *)
Definition deliver (rt : Runtime) (config : Config) (message : option string)
  : act Response :=
  let room_id_value := room_id config in
  if negb (truthy message) then
    log INFO "No message to send. Message contents empty." ;;
    ret (json_response [("status", "ok")] 200)
  else
    (* past the test the message is a string, and not the empty one *)
    let message := match message with Some m => m | None => "" end in
    let mautrix_room_id := room_id_value in
    let msgtype := "m.text" in
    log INFO ("Sending message (" ++ msgtype ++ ") to room " ++ mautrix_room_id
              ++ ": " ++ message) ;;
    emit (SendMarkdown mautrix_room_id message msgtype) ;;
    match send_markdown rt mautrix_room_id message msgtype with
    | None => ret (json_response [("status", "ok")] 200)
    | Some e =>
        let error_message :=
          "Failed to send message '" ++ message ++ "' to room "
          ++ mautrix_room_id ++ ": " ++ e in
        log ERROR error_message ;;
        ret (json_response
               [("status", "failed to send message");
                ("error_message", error_message)]
               500)
    end.

(** Lines 73-120. *)
Definition dispatch (rt : Runtime) (config : Config) (payload : json) : act Response :=
  message <- route config payload ;;
  deliver rt config message.

Definition webhook (rt : Runtime) (config : Config) (request : Request) : act Response :=
  let received_signature :=
    match x_plane_signature request with
    | Some v => v
    | None => ""
    end in
  let secret := secret config in
  verified <- lift (verify_plane_signature secret (body_bytes request)
                      (Some received_signature)) ;;
  if negb verified then ret (json_response [("status", "unauthorized")] 403)
  else
    match json_loads rt (body_bytes request) with
    | Raise JSONDecodeError =>
        log WARNING "Invalid JSON from Plane" ;;
        ret (json_response [("status", "bad json")] 400)
    | Raise e => lift (Raise e)
    | Ok payload =>
        log INFO (json_dumps rt payload) ;;
        dispatch rt config payload
    end.

End Plugin.

(** ** The specification's vocabulary *)

Module Spec.
Import Utils Plugin.

(** The value a key path leads to. *)
Inductive at_path : json -> list string -> json -> Prop :=
| at_end (v : json) : at_path v [] v
| at_key (d : list (string * json)) (key : string) (rest : list string)
         (child v : json) :
    dict_get d key = Some child -> at_path child rest v ->
    at_path (JDict d) (key :: rest) v.

Definition is_map (v : json) : Prop := exists d, v = JDict d.

(** A path that breaks: a node on the way is not a map, or lacks the key. *)
Inductive broken : json -> list string -> Prop :=
| broken_not_map (v : json) (key : string) (rest : list string) :
    ~ is_map v -> broken v (key :: rest)
| broken_missing (d : list (string * json)) (key : string) (rest : list string) :
    dict_get d key = None -> broken (JDict d) (key :: rest)
| broken_below (d : list (string * json)) (key : string) (rest : list string)
               (child : json) :
    dict_get d key = Some child -> broken child rest ->
    broken (JDict d) (key :: rest).

(** The same lookup as a function, for statements that compute. *)
Fixpoint value_at (v : json) (path : list string) : option json :=
  match path, v with
  | [], _ => Some v
  | key :: rest, JDict d =>
      match dict_get d key with
      | Some child => value_at child rest
      | None => None
      end
  | _ :: _, _ => None
  end.

(** The string at a path, if a string is there. *)
Definition string_at (v : json) (path : list string) : option string :=
  match value_at v path with
  | Some (JStr s) => Some s
  | _ => None
  end.

(** The text a template shows for a field that defaults. *)
Definition shown (v : json) (path : list string) (default : string) : string :=
  match string_at v path with
  | Some EmptyString => default
  | Some s => s
  | None => default
  end.

(** The rename table of the update message. *)
Definition renamed (field : string) : string :=
  if String.eqb field "target_date" then "due date"
  else if String.eqb field "name" then "title"
  else field.

(** The text an f-string shows for a field: the string, or [None]. *)
Definition printed (v : json) (path : list string) : string :=
  match string_at v path with
  | Some s => s
  | None => "None"
  end.

(** The entries of [data.assignees]: the list there, or none. *)
Definition assignees (payload : json) : list json :=
  match value_at payload ["data"; "assignees"] with
  | Some (JList l) => l
  | _ => []
  end.

(** What an entry contributes under a key: a map holding the key gives the
    value stringified, anything else is skipped. *)
Definition entry (key : string) (item : json) : list string :=
  match item with
  | JDict d =>
      match dict_get d key with
      | Some v => [py_str v]
      | None => []
      end
  | _ => []
  end.

Definition listed (key : string) (items : list json) : list string :=
  flat_map (entry key) items.

(** An entry that names its assignee by id only. *)
Definition id_only (item : json) : Prop :=
  exists d, item = JDict d /\ dict_has d "id" = true
            /\ dict_has d "display_name" = false.

(** The ids of a previous value that arrived as a list: its strings,
    trimmed, the empty ones dropped. *)
Definition ids_of_list (items : list json) : list string :=
  filter nonempty
    (flat_map (fun item => match item with
                           | JStr s => [strip s]
                           | _ => []
                           end) items).

(** The previous sole assignee that an update cleared, when the previous
    value is a string: the one id the string parses to. *)
Definition previous_sole_id (payload : json) : option string :=
  match string_at payload ["activity"; "old_value"] with
  | Some s =>
      match split_ids s with
      | [previous] => Some previous
      | _ => None
      end
  | None => None
  end.

(** The four conditions of the sole-assignee-removed predicate, the
    previous value read as a string. *)
Definition sole_non_actor_cleared (payload : json) : bool :=
  eq_optional (string_at payload ["activity"; "field"]) "assignee_ids"
  && match listed "id" (assignees payload) with [] => true | _ => false end
  && match previous_sole_id payload with
     | Some previous =>
         truthy (string_at payload ["activity"; "actor"; "id"])
         && nonempty previous
         && negb (eq_optional (string_at payload ["activity"; "actor"; "id"]) previous)
     | None => false
     end.

(** The actor is the one assignee. *)
Definition actor_is_sole (payload : json) : bool :=
  match string_at payload ["activity"; "actor"; "id"],
        listed "id" (assignees payload) with
  | Some actor, [first] => String.eqb first actor
  | _, _ => false
  end.

(** The three suppression gates of an update, in their order.  The first
    reads the list of assignee display names. *)
Definition gate_no_assignees (config : Config) (payload : json) : bool :=
  match listed "display_name" (assignees payload) with [] => true | _ => false end
  && negb (sole_non_actor_cleared payload)
  && negb (config_get (send_notification_with_no_assignees config) false).

Definition gate_actor_is_sole (config : Config) (payload : json) : bool :=
  actor_is_sole payload
  && negb (config_get (send_notification_when_actor_is_sole_assignee config) false).

(** The changed field as the third gate looks it up. *)
Definition changed_field (payload : json) : string :=
  lower (strip (shown payload ["activity"; "field"] "")).

Definition gate_field (config : Config) (payload : json) : bool :=
  negb (mem (changed_field payload)
            (config_get (issue_updated_notification_fields config) [])).

Definition issue_url (workspace : string) (payload : json) : string :=
  workspace ++ "/projects/" ++ printed payload ["data"; "project"]
  ++ "/issues/" ++ printed payload ["data"; "id"].

(** The message of an update: title, link, renamed field, actor, then the
    new and the old value as given. *)
Definition update_message (workspace : string) (payload : json) : string :=
  "Task: **[" ++ shown payload ["data"; "name"] "Untitled"
  ++ "](" ++ issue_url workspace payload ++ ")** " ++ SEPARATOR
  ++ " **" ++ renamed (shown payload ["activity"; "field"] "Unknown field")
  ++ "** updated by **"
  ++ shown payload ["activity"; "actor"; "display_name"] "Unknown user"
  ++ "**" ++ LF ++ LF
  ++ "- **New:** `" ++ shown payload ["activity"; "new_value"] "None" ++ "`" ++ LF
  ++ "- **Old:** `" ++ shown payload ["activity"; "old_value"] "None" ++ "`" ++ LF.

(** The pairs of event and action that have a handler. *)
Definition handled (event_type action_type : json) : bool :=
  (eq_str event_type "issue" && eq_str action_type "created")
  || (eq_str event_type "issue" && eq_str action_type "updated")
  || (eq_str event_type "issue_comment" && eq_str action_type "created").

(** The outcomes of the specification, read off a finished request. *)
Inductive Outcome : Type :=
| Unauthorized
| BadPayload
| NoMessage
| Delivered
| DeliveryFailed (reason : string).

Definition sent (ev : event) : bool :=
  match ev with
  | SendMarkdown _ _ _ => true
  | Log _ _ => false
  end.

Definition outcome (run : act Response) : option Outcome :=
  match run with
  | (trace, Ok response) =>
      if (status response =? 403)%Z then Some Unauthorized
      else if (status response =? 400)%Z then Some BadPayload
      else if (status response =? 500)%Z then
        Some (DeliveryFailed
                (match data response with
                 | [_; (_, reason)] => reason
                 | _ => ""
                 end))
      else if existsb sent trace then Some Delivered
      else Some NoMessage
  | (_, Raise _) => None
  end.

(** A lower-case hexadecimal digit. *)
Definition hex_char (c : ascii) : bool := mem_char c "0123456789abcdef".

Fixpoint all_chars (test : ascii -> bool) (s : string) : bool :=
  match s with
  | EmptyString => true
  | String c r => test c && all_chars test r
  end.

(** The message of a created issue. *)
Definition created_message (workspace : string) (payload : json) : string :=
  "**New task created** by **"
  ++ shown payload ["activity"; "actor"; "display_name"] "Unknown user"
  ++ "**" ++ LF ++ LF
  ++ "- **Title & Link:** [" ++ shown payload ["data"; "name"] "Untitled"
  ++ "](" ++ issue_url workspace payload ++ ")" ++ LF
  ++ "- **Priority:** " ++ shown payload ["data"; "priority"] "None" ++ LF
  ++ "- **Due date:** " ++ shown payload ["data"; "target_date"] "None" ++ LF
  ++ "- **Assignees:** "
  ++ match listed "display_name" (assignees payload) with
     | [] => "Unassigned"
     | names => join ", " names
     end
  ++ LF.

Definition comment_url (workspace : string) (payload : json) : string :=
  workspace ++ "/projects/" ++ printed payload ["data"; "project"]
  ++ "/issues/" ++ printed payload ["data"; "issue"]
  ++ "/#comment-" ++ printed payload ["data"; "id"].

(** The event and the action of a payload that is a JSON object. *)
Definition event_of (d : list (string * json)) : json :=
  match dict_get d "event" with Some v => v | None => JNull end.

Definition action_of (d : list (string * json)) : json :=
  match dict_get d "action" with Some v => v | None => JNull end.

(** How many times a run handed a message to the client. *)
Definition sends (trace : list event) : nat := List.length (filter sent trace).

(** A string that does not start with a blank. *)
Definition starts_firm (s : string) : bool :=
  match s with
  | EmptyString => true
  | String c _ => negb (is_space c)
  end.

(** A request that carries the signature of its body. *)
Definition authentic (config : Config) (request : Request) : Prop :=
  x_plane_signature request
  = Some (Sha256.hexdigest (encode_utf8 (secret config)) (body_bytes request)).

(** The ways a request can go. *)
Inductive course (rt : Runtime) (config : Config) (request : Request)
  : act Response -> Prop :=
| refused :
    ~ authentic config request ->
    course rt config request
      ([], Ok (json_response [("status", "unauthorized")] 403))
| comparison_raised :
    ~ authentic config request ->
    course rt config request ([], Raise TypeError)
| not_json :
    authentic config request ->
    json_loads rt (body_bytes request) = Raise JSONDecodeError ->
    course rt config request
      ([Log WARNING "Invalid JSON from Plane"],
       Ok (json_response [("status", "bad json")] 400))
| codec_raised (e : exn) :
    authentic config request ->
    json_loads rt (body_bytes request) = Raise e -> e <> JSONDecodeError ->
    course rt config request ([], Raise e)
| not_an_object (payload : json) :
    authentic config request ->
    json_loads rt (body_bytes request) = Ok payload ->
    (forall d, payload <> JDict d) ->
    course rt config request
      ([Log INFO (json_dumps rt payload)], Raise AttributeError)
| routed (d : list (string * json)) (logs : list event) (message : option string) :
    authentic config request ->
    json_loads rt (body_bytes request) = Ok (JDict d) ->
    route config (JDict d) = (logs, Ok message) ->
    existsb sent logs = false ->
    course rt config request
      ((Log INFO (json_dumps rt (JDict d)) :: logs
        ++ fst (deliver rt config message))%list,
       snd (deliver rt config message)).

End Spec.

(** ** Example requests *)

Module Scenario.
Import Utils Plugin.

(** The payload of the specification's example: the sole assignee
    [user-42] cleared by [user-7]. *)
Definition cleared_by (old_value : json) (actor : string) : json :=
  JDict [("event", JStr "issue"); ("action", JStr "updated");
         ("data", JDict [("id", JStr "I1"); ("project", JStr "P1");
                         ("name", JStr "Fix bug"); ("assignees", JList [])]);
         ("activity", JDict [("field", JStr "assignee_ids");
                             ("old_value", old_value);
                             ("new_value", JNull);
                             ("actor", JDict [("id", JStr actor);
                                              ("display_name", JStr "Bob")])])].

(** Settings with both switches off and the given fields notified. *)
Definition settings (fields : list string) : Config :=
  {| room_id := "!room:example.org";
     secret := "secret";
     workspace_url := "https://x";
     send_notification_with_no_assignees := Some false;
     send_notification_when_actor_is_sole_assignee := Some false;
     issue_updated_notification_fields := Some fields |}.

(** Scenario B: the due date moved; [data] is the issue. *)
Definition due_date_moved (data : json) : json :=
  JDict [("event", JStr "issue"); ("action", JStr "updated");
         ("data", data);
         ("activity", JDict [("field", JStr "target_date");
                             ("old_value", JStr "2024-01-01");
                             ("new_value", JStr "2024-02-01")])].

(** An issue whose assignees carry ids and no display names. *)
Definition assigned_by_id_only : json :=
  JDict [("event", JStr "issue"); ("action", JStr "updated");
         ("data", JDict [("id", JStr "I1"); ("project", JStr "P1");
                         ("assignees", JList [JDict [("id", JStr "user-42")]])]);
         ("activity", JDict [("field", JStr "priority");
                             ("old_value", JStr "low");
                             ("new_value", JStr "high");
                             ("actor", JDict [("id", JStr "user-7")])])].

(** An event the plugin has no handler for, and the body that carries it. *)
Definition unhandled_event : json :=
  JDict [("event", JStr "project"); ("action", JStr "created")].

Definition DQ : string := String (ascii_of_N 34) "".

Definition unhandled_body : bytes :=
  encode_utf8 ("{" ++ DQ ++ "event" ++ DQ ++ ": " ++ DQ ++ "project" ++ DQ ++ ", "
               ++ DQ ++ "action" ++ DQ ++ ": " ++ DQ ++ "created" ++ DQ ++ "}").

(** A stand-in for the collaborators: the codec reads the one body above and
    refuses every other, and the client delivers every message. *)
Definition stand_in : Runtime :=
  {| json_loads := fun body =>
       if hex body =? hex unhandled_body then Ok unhandled_event
       else Raise JSONDecodeError;
     json_dumps := py_repr;
     send_markdown := fun _ _ _ => None |}.

(** A request signed with the secret of the settings. *)
Definition signed (config : Config) (body : bytes) : Request :=
  {| body_bytes := body;
     x_plane_signature := Some (Sha256.hexdigest (encode_utf8 (secret config)) body) |}.

(** A signature header that holds a character beyond ASCII (U+00E9). *)
Definition accented_signature : string := String (ascii_of_N 233) "".

(** A stand-in whose codec reads every body as the given payload and whose
    client answers every message with the given answer. *)
Definition reading (payload : json) (answer : option string) : Runtime :=
  {| json_loads := fun _ => Ok payload;
     json_dumps := py_repr;
     send_markdown := fun _ _ _ => answer |}.

(** An update made by the one assignee of the issue. *)
Definition updated_by_sole_assignee : json :=
  JDict [("event", JStr "issue"); ("action", JStr "updated");
         ("data", JDict [("id", JStr "I1"); ("project", JStr "P1");
                         ("assignees",
                           JList [JDict [("id", JStr "user-7");
                                         ("display_name", JStr "Bob")]])]);
         ("activity", JDict [("field", JStr "priority");
                             ("old_value", JStr "low");
                             ("new_value", JStr "high");
                             ("actor", JDict [("id", JStr "user-7");
                                              ("display_name", JStr "Bob")])])].

(** An update whose actor and assignee carry the number 7 as their id. *)
Definition numbered (actor_id : json) : json :=
  JDict [("event", JStr "issue"); ("action", JStr "updated");
         ("data", JDict [("assignees", JList [JDict [("id", JInt 7)]])]);
         ("activity", JDict [("field", JStr "priority");
                             ("actor", JDict [("id", actor_id)])])].

(** A created issue, as scenario A has it. *)
Definition created_issue : json :=
  JDict [("event", JStr "issue"); ("action", JStr "created");
         ("data", JDict [("name", JStr "Fix bug"); ("priority", JStr "High");
                         ("target_date", JStr "2024-01-01");
                         ("assignees", JList [JDict [("display_name", JStr "Alice")]])]);
         ("activity", JDict [("actor", JDict [("display_name", JStr "Bob")])])].

End Scenario.

(** * Verification *)

(** ** The library model against known values *)

Example py_str_samples :
  py_str (JStr "user-42") = "user-42" /\
  py_str (JInt 123) = "123" /\
  py_str (JInt (-5)) = "-5" /\
  py_str JNull = "None" /\
  py_str (JList [JInt 1; JStr "a'b"]) = String "[" ("1, " ++ String (ascii_of_N 34) ("a'b" ++ String (ascii_of_N 34) "]")) /\
  py_str (JDict [("id", JBool true)]) = "{'id': True}".
Proof. repeat split; reflexivity. Qed.

Example strip_samples :
  strip "  user-42 " = "user-42" /\ strip "   " = "" /\
  split "," "a, b,,c" = ["a"; " b"; ""; "c"] /\ split "," "" = [""] /\
  lower "Target_Date" = "target_date".
Proof. repeat split; reflexivity. Qed.

Example sha256_constants :
  firstn 3 Sha256.K = [0x428a2f98; 0x71374491; 0xb5c0fbcf]%N
  /\ nth 63 Sha256.K 0%N = 0xc67178f2%N
  /\ List.length Sha256.K = 64%nat
  /\ Sha256.a Sha256.H0 = 0x6a09e667%N
  /\ Sha256.h Sha256.H0 = 0x5be0cd19%N.
Proof. vm_compute. repeat split; reflexivity. Qed.

Example sha256_abc :
  hex (Sha256.sha256 (encode_utf8 "abc"))
  = "ba7816bf8f01cfea414140de5dae2223b00361a396177a9cb410ff61f20015ad".
Proof. vm_compute. reflexivity. Qed.

Example sha256_empty :
  hex (Sha256.sha256 [])
  = "e3b0c44298fc1c149afbf4c8996fb92427ae41e4649b934ca495991b7852b855".
Proof. vm_compute. reflexivity. Qed.

Example sha256_two_blocks :
  hex (Sha256.sha256 (repeat Byte.x61 70))
  = "6bd5e5034855a11241f0dee8fc72850ffd9955b28347a86428b5fa19119f6ad0".
Proof. vm_compute. reflexivity. Qed.

(** RFC 4231, test case 2. *)
Example hmac_rfc4231_case2 :
  Sha256.hexdigest (encode_utf8 "Jefe") (encode_utf8 "what do ya want for nothing?")
  = "5bdcc146bf60754e6a042426089575c75a003f089d2739839dec58b964ec3843".
Proof. vm_compute. reflexivity. Qed.

Example hmac_long_key :
  Sha256.hexdigest (repeat Byte.x6b 80) (encode_utf8 "body")
  = "1cff508e430f64307c8fe9f83f3aae0f305f485e6f98d243b38fd7f01e99b0f6".
Proof. vm_compute. reflexivity. Qed.

(** ** The payload accessor *)

Import Utils Plugin Spec Scenario.

Lemma dict_has_get (d : list (string * json)) (key : string) :
  dict_has d key = true -> exists v, dict_get d key = Some v.
Proof.
  unfold dict_has. destruct (dict_get d key) as [v|]; [eauto | discriminate].
Qed.

Lemma dict_has_none (d : list (string * json)) (key : string) :
  dict_has d key = false -> dict_get d key = None.
Proof.
  unfold dict_has. destruct (dict_get d key); [discriminate | reflexivity].
Qed.

(** The loop is the lookup: it leaves early exactly where no value is. *)
Lemma nested_loop_value_at (path : list string) :
  forall payload,
    _get_nested_loop payload path
    = Ok (match value_at payload path with
          | Some v => inr v
          | None => inl tt
          end).
Proof.
  induction path as [|key rest IH]; intros payload; [reflexivity|].
  destruct payload; try reflexivity.
  simpl. unfold dict_has, dict_getitem.
  destruct (dict_get d key) as [child|]; simpl; [apply IH | reflexivity].
Qed.

Lemma value_at_some (path : list string) :
  forall payload v, value_at payload path = Some v <-> at_path payload path v.
Proof.
  induction path as [|key rest IH]; intros payload v; split; intros H.
  - simpl in H. injection H as <-. constructor.
  - inversion H; subst. reflexivity.
  - destruct payload; try discriminate. simpl in H.
    destruct (dict_get d key) as [child|] eqn:E; [|discriminate].
    econstructor; [exact E | apply IH; exact H].
  - inversion H as [|d k r child w Hget Hrest]; subst. simpl. rewrite Hget.
    apply IH. exact Hrest.
Qed.

Lemma value_at_none (path : list string) :
  forall payload, value_at payload path = None <-> broken payload path.
Proof.
  induction path as [|key rest IH]; intros payload; split; intros H.
  - discriminate.
  - inversion H.
  - destruct payload;
      try (apply broken_not_map; intros [d' Hd]; discriminate).
    simpl in H. destruct (dict_get d key) as [child|] eqn:E.
    + eapply broken_below; [exact E | apply IH; exact H].
    + apply broken_missing. exact E.
  - inversion H as [v k r Hmap | d k r Hget | d k r child Hget Hrest]; subst.
    + destruct payload; try reflexivity. exfalso. apply Hmap. eexists. reflexivity.
    + simpl. rewrite Hget. reflexivity.
    + simpl. rewrite Hget. apply IH. exact Hrest.
Qed.

(** Every path either breaks or leads to a value, never both. *)
Lemma path_breaks_or_leads (payload : json) (path : list string) :
  (broken payload path /\ forall v, ~ at_path payload path v)
  \/ (exists v, at_path payload path v /\ ~ broken payload path).
Proof.
  destruct (value_at payload path) as [v|] eqn:E.
  - right. exists v. split; [apply value_at_some; exact E|].
    intros B. apply value_at_none in B. congruence.
  - left. split; [apply value_at_none; exact E|].
    intros v A. apply value_at_some in A. congruence.
Qed.

Lemma get_nested_value_eq
    (payload : json) (path : list string)
    (expected_type : option type_spec) (default : json) :
  _get_nested_value payload path expected_type default
  = Ok (match value_at payload path with
        | None => default
        | Some v =>
            match expected_type with
            | Some spec => if isinstance_of v spec then v else default
            | None => v
            end
        end).
Proof.
  unfold _get_nested_value. rewrite nested_loop_value_at. simpl.
  destruct (value_at payload path) as [v|]; [|reflexivity].
  destruct expected_type as [spec|]; [|reflexivity].
  destruct (isinstance_of v spec); reflexivity.
Qed.

(** C6.  [_get_nested_value] never raises.  It returns the default when the
    path breaks (a node on the way is not a map, or a key is missing) and
    when the value at the end is not of the expected type; otherwise it
    returns the value at the end of the path.  The cases are exhaustive:
    every path breaks or leads to a value. *)
Theorem C6_get_nested_value_total_and_exact :
  forall (payload : json) (path : list string)
         (expected_type : option type_spec) (default : json),
    (exists r, _get_nested_value payload path expected_type default = Ok r)
    /\ (broken payload path ->
        _get_nested_value payload path expected_type default = Ok default)
    /\ (forall v spec,
          at_path payload path v -> expected_type = Some spec ->
          isinstance_of v spec = false ->
          _get_nested_value payload path expected_type default = Ok default)
    /\ (forall v,
          at_path payload path v ->
          (expected_type = None
           \/ exists spec, expected_type = Some spec /\ isinstance_of v spec = true) ->
          _get_nested_value payload path expected_type default = Ok v)
    /\ (broken payload path \/ exists v, at_path payload path v).
Proof.
  intros payload path expected_type default.
  rewrite get_nested_value_eq.
  split; [eauto|]. split; [|split; [|split]].
  - intros B. apply value_at_none in B. rewrite B. reflexivity.
  - intros v spec A -> Hty. apply value_at_some in A. rewrite A, Hty. reflexivity.
  - intros v A [-> | [spec [-> Hty]]]; apply value_at_some in A; rewrite A;
      [|rewrite Hty]; reflexivity.
  - destruct (path_breaks_or_leads payload path) as [[B _] | [v [A _]]]; eauto.
Qed.

(** The three typed accessors return the string at their path, or [None]. *)
Lemma get_actor_value_eq (payload : json) (key : string) :
  get_actor_value_from_payload payload key
  = Ok (string_at payload ["activity"; "actor"; key]).
Proof.
  unfold get_actor_value_from_payload, string_at. rewrite get_nested_value_eq.
  destruct (value_at payload _) as [[]|]; reflexivity.
Qed.

Lemma get_activity_value_eq (payload : json) (key : string) :
  get_activity_value_from_payload payload key
  = Ok (string_at payload ["activity"; key]).
Proof.
  unfold get_activity_value_from_payload, string_at. rewrite get_nested_value_eq.
  destruct (value_at payload _) as [[]|]; reflexivity.
Qed.

Lemma get_data_value_eq (payload : json) (key : string) :
  get_data_value_from_payload payload key
  = Ok (string_at payload ["data"; key]).
Proof.
  unfold get_data_value_from_payload, string_at. rewrite get_nested_value_eq.
  destruct (value_at payload _) as [[]|]; reflexivity.
Qed.

(** ** The assignee analyzer *)

Lemma stringified_eq (key : string) (items : list json) :
  stringified key items = Ok (listed key items).
Proof.
  induction items as [|item rest IH]; [reflexivity|].
  destruct item; simpl; try exact IH.
  unfold dict_has, dict_getitem.
  destruct (dict_get d key) as [v|]; simpl; [rewrite IH; reflexivity | exact IH].
Qed.

Lemma assignees_raw_eq (payload : json) :
  _get_nested_value payload ["data"; "assignees"] (Some (Class TList)) (JList [])
  = Ok (JList (assignees payload)).
Proof.
  rewrite get_nested_value_eq. unfold assignees.
  destruct (value_at payload ["data"; "assignees"]) as [[]|]; reflexivity.
Qed.

Lemma get_assignee_name_list_eq (payload : json) :
  get_assignee_name_list_from_payload payload
  = Ok (listed "display_name" (assignees payload)).
Proof.
  unfold get_assignee_name_list_from_payload. rewrite assignees_raw_eq.
  simpl. apply stringified_eq.
Qed.

Lemma get_assignee_id_list_eq (payload : json) :
  _get_assignee_id_list_from_payload payload
  = Ok (listed "id" (assignees payload)).
Proof.
  unfold _get_assignee_id_list_from_payload. rewrite assignees_raw_eq.
  simpl. apply stringified_eq.
Qed.

Lemma string_at_path (payload : json) (path : list string) (s : string) :
  string_at payload path = Some s <-> at_path payload path (JStr s).
Proof.
  unfold string_at. rewrite <- value_at_some.
  destruct (value_at payload path) as [[]|]; split; intros H;
    try discriminate; congruence.
Qed.

Lemma is_actor_sole_assignee_eq (payload : json) :
  is_actor_sole_assignee payload
  = Ok (match string_at payload ["activity"; "actor"; "id"],
              listed "id" (assignees payload) with
        | Some actor, [first] => String.eqb first actor
        | _, _ => false
        end).
Proof.
  unfold is_actor_sole_assignee.
  rewrite get_assignee_id_list_eq, get_actor_value_eq. simpl.
  destruct (string_at payload _) as [actor|]; [|reflexivity].
  destruct (listed "id" (assignees payload)) as [|first [|second rest]];
    reflexivity.
Qed.

(** C7.  [is_actor_sole_assignee] answers, and answers true exactly when the
    actor id is present and the assignee-id list is that one id.  With no
    assignee, with two or more, or with one that is not the actor, it
    answers false. *)
Theorem C7_is_actor_sole_assignee_iff :
  forall payload : json,
    exists answer,
      is_actor_sole_assignee payload = Ok answer
      /\ (answer = true <->
          exists actor,
            at_path payload ["activity"; "actor"; "id"] (JStr actor)
            /\ _get_assignee_id_list_from_payload payload = Ok [actor])
      /\ (_get_assignee_id_list_from_payload payload = Ok [] -> answer = false)
      /\ (forall first second rest,
            _get_assignee_id_list_from_payload payload
            = Ok (first :: second :: rest) -> answer = false)
      /\ (forall only,
            _get_assignee_id_list_from_payload payload = Ok [only] ->
            ~ at_path payload ["activity"; "actor"; "id"] (JStr only) ->
            answer = false).
Proof.
  intros payload. rewrite is_actor_sole_assignee_eq, get_assignee_id_list_eq.
  eexists. split; [reflexivity|].
  destruct (string_at payload ["activity"; "actor"; "id"]) as [actor|] eqn:Ha.
  - apply string_at_path in Ha.
    assert (Hone : forall other, at_path payload ["activity"; "actor"; "id"] (JStr other)
                                 -> other = actor).
    { intros other Ho. apply string_at_path in Ha, Ho. congruence. }
    destruct (listed "id" (assignees payload)) as [|first [|second rest]].
    + repeat split; try reflexivity; try discriminate.
      intros [x [_ Hx]]. discriminate.
    + destruct (String.eqb first actor) eqn:E.
      * apply String.eqb_eq in E. subst first.
        repeat split; try discriminate.
        -- intros _. exists actor. split; [exact Ha | reflexivity].
        -- intros only Honly Hnot. injection Honly as <-. contradiction.
      * apply String.eqb_neq in E.
        repeat split; try reflexivity; try discriminate.
        intros [x [Hx Hl]]. injection Hl as ->. apply Hone in Hx. congruence.
    + repeat split; try reflexivity; try discriminate.
      intros [x [_ Hx]]. discriminate.
  - assert (Hnone : forall other,
               ~ at_path payload ["activity"; "actor"; "id"] (JStr other)).
    { intros other Ho. apply string_at_path in Ho. congruence. }
    repeat split; try reflexivity; try discriminate.
    intros [x [Hx _]]. destruct (Hnone _ Hx).
Qed.

Lemma was_non_actor_sole_assignee_removed_eq (payload : json) :
  was_non_actor_sole_assignee_removed payload = Ok (sole_non_actor_cleared payload).
Proof.
  unfold was_non_actor_sole_assignee_removed, sole_non_actor_cleared, previous_sole_id.
  rewrite get_activity_value_eq. simpl.
  destruct (eq_optional (string_at payload ["activity"; "field"]) "assignee_ids");
    [|reflexivity].
  rewrite get_assignee_id_list_eq. simpl.
  destruct (listed "id" (assignees payload)); [|reflexivity].
  rewrite get_activity_value_eq. simpl.
  destruct (string_at payload ["activity"; "old_value"]) as [[|c old]|];
    try reflexivity.
  simpl nonempty. cbv iota.
  destruct (split_ids (String c old)) as [|previous [|second rest]];
    try reflexivity.
  simpl. rewrite get_actor_value_eq. reflexivity.
Qed.

Lemma split_ids_nonempty (s previous : string) :
  In previous (split_ids s) -> nonempty previous = true.
Proof.
  unfold split_ids. intros H. apply in_map_iff in H.
  destruct H as [raw [<- H]]. apply filter_In in H. apply H.
Qed.

Lemma nonempty_true (s : string) : s <> "" -> nonempty s = true.
Proof. destruct s; [congruence | reflexivity]. Qed.

(** The path that works: when the changed field is [assignee_ids], no
    assignee is left, the previous value is a comma-separated string that
    parses (trimmed, the empty parts dropped) to exactly one id, and the
    actor id is a non-empty string other than that id, the predicate answers
    true. *)
Theorem C2_sole_assignee_removed_from_string :
  forall (payload : json) (old previous actor : string),
    at_path payload ["activity"; "field"] (JStr "assignee_ids") ->
    _get_assignee_id_list_from_payload payload = Ok [] ->
    at_path payload ["activity"; "old_value"] (JStr old) ->
    split_ids old = [previous] ->
    at_path payload ["activity"; "actor"; "id"] (JStr actor) ->
    actor <> "" -> actor <> previous ->
    was_non_actor_sole_assignee_removed payload = Ok true
    /\ previous <> "".
Proof.
  intros payload old previous actor Hfield Hids Hold Hsplit Hactor Hne Hdiff.
  assert (Hprev : nonempty previous = true).
  { apply (split_ids_nonempty old). rewrite Hsplit. left. reflexivity. }
  split; [|intros ->; discriminate].
  rewrite was_non_actor_sole_assignee_removed_eq.
  unfold sole_non_actor_cleared, previous_sole_id.
  apply string_at_path in Hfield, Hold, Hactor.
  rewrite get_assignee_id_list_eq in Hids. injection Hids as Hids.
  rewrite Hfield, Hids, Hold, Hsplit, Hactor. simpl.
  rewrite (nonempty_true actor Hne), Hprev.
  apply String.eqb_neq in Hdiff. rewrite Hdiff. reflexivity.
Qed.

Lemma C2_sole_assignee_removed_witness :
  was_non_actor_sole_assignee_removed (cleared_by (JStr " user-42 ,") "user-7") = Ok true
  /\ "user-42" <> "".
Proof.
  apply (C2_sole_assignee_removed_from_string
           (cleared_by (JStr " user-42 ,") "user-7") " user-42 ," "user-42" "user-7").
  - apply string_at_path. reflexivity.
  - reflexivity.
  - apply string_at_path. reflexivity.
  - reflexivity.
  - apply string_at_path. reflexivity.
  - discriminate.
  - discriminate.
Defined.

Lemma list_old_value_is_missing (payload : json) (entries : list json) :
  at_path payload ["activity"; "old_value"] (JList entries) ->
  get_activity_value_from_payload payload "old_value" = Ok None
  /\ was_non_actor_sole_assignee_removed payload = Ok false.
Proof.
  intros H. apply value_at_some in H.
  assert (Hnone : string_at payload ["activity"; "old_value"] = None).
  { unfold string_at. rewrite H. reflexivity. }
  rewrite get_activity_value_eq, was_non_actor_sole_assignee_removed_eq, Hnone.
  split; [reflexivity|].
  unfold sole_non_actor_cleared, previous_sole_id. rewrite Hnone.
  rewrite andb_false_r. reflexivity.
Qed.

(** C2, at an input the code receives.  The function tells a string from a
    list (lines 219-228), but reads the previous value through the accessor
    that returns strings only: a previous value that arrives as a list is
    read as missing, and the answer is false for every such payload.  The
    payload whose previous value is the list of the one id [user-42], cleared
    by [user-7], meets every condition of the claim and is answered false. *)
Theorem C2_list_old_value_is_answered_false :
  (forall (payload : json) (entries : list json),
      at_path payload ["activity"; "old_value"] (JList entries) ->
      get_activity_value_from_payload payload "old_value" = Ok None
      /\ was_non_actor_sole_assignee_removed payload = Ok false)
  /\ (let payload := cleared_by (JList [JStr "user-42"]) "user-7" in
      at_path payload ["activity"; "field"] (JStr "assignee_ids")
      /\ _get_assignee_id_list_from_payload payload = Ok []
      /\ at_path payload ["activity"; "old_value"] (JList [JStr "user-42"])
      /\ ids_of_list [JStr "user-42"] = ["user-42"]
      /\ at_path payload ["activity"; "actor"; "id"] (JStr "user-7")
      /\ "user-7" <> "" /\ "user-7" <> "user-42"
      /\ was_non_actor_sole_assignee_removed payload = Ok false).
Proof.
  split; [exact list_old_value_is_missing|].
  repeat split; try discriminate; try reflexivity;
    try (apply string_at_path; reflexivity).
  apply value_at_some. reflexivity.
Qed.

(** ** URLs *)

Lemma generate_issue_url_eq (payload : json) (workspace_base_url : string) :
  generate_issue_url payload workspace_base_url
  = Ok (workspace_base_url ++ "/projects/" ++ printed payload ["data"; "project"]
        ++ "/issues/" ++ printed payload ["data"; "id"]).
Proof.
  unfold generate_issue_url, printed. rewrite !get_data_value_eq. reflexivity.
Qed.

(** C10.  The comment URL is the workspace URL, [/projects/], the project id,
    [/issues/], the issue id read from [data.issue], [/#comment-] and the
    comment id read from [data.id]; the payload of the specification's
    scenario gives the URL the specification names. *)
Theorem C10_generate_comment_url_exact :
  (forall (payload : json) (workspace_base_url : string),
      generate_comment_url payload workspace_base_url
      = Ok (workspace_base_url
            ++ "/projects/" ++ printed payload ["data"; "project"]
            ++ "/issues/" ++ printed payload ["data"; "issue"]
            ++ "/#comment-" ++ printed payload ["data"; "id"]))
  /\ generate_comment_url
       (JDict [("data", JDict [("project", JStr "P1"); ("issue", JStr "I2");
                               ("id", JStr "C3")])])
       "https://x"
     = Ok "https://x/projects/P1/issues/I2/#comment-C3".
Proof.
  split; [|reflexivity].
  intros payload workspace_base_url.
  unfold generate_comment_url, printed. rewrite !get_data_value_eq. reflexivity.
Qed.

(** ** The signature verifier *)

Lemma isascii_app (s t : string) :
  isascii (s ++ t) = isascii s && isascii t.
Proof.
  induction s as [|c s IH]; [reflexivity|].
  simpl. rewrite IH. apply andb_assoc.
Qed.

Lemma hex_digit_ascii (n : N) : (code (hex_digit n) <? 128)%N = true.
Proof.
  unfold hex_digit. generalize (N.to_nat n) as k. intros k.
  do 16 (destruct k as [|k]; [reflexivity|]). reflexivity.
Qed.

Lemma append_empty_r (s : string) : s ++ "" = s.
Proof. induction s as [|c s IH]; [reflexivity | simpl; rewrite IH; reflexivity]. Qed.

Lemma concat_empty_cons (x : string) (l : list string) :
  concat "" (x :: l) = x ++ concat "" l.
Proof.
  destruct l as [|y l]; simpl; [rewrite append_empty_r|]; reflexivity.
Qed.

Lemma hex_cons (x : Byte.byte) (rest : bytes) :
  hex (x :: rest) = hex2 (Byte.to_N x) ++ hex rest.
Proof. unfold hex. simpl map. apply concat_empty_cons. Qed.

Lemma hex_ascii (data : bytes) : isascii (hex data) = true.
Proof.
  induction data as [|x rest IH]; [reflexivity|].
  rewrite hex_cons, isascii_app, IH.
  unfold hex2. simpl. rewrite !hex_digit_ascii. reflexivity.
Qed.

Lemma hex_nonempty (x : Byte.byte) (rest : bytes) : nonempty (hex (x :: rest)) = true.
Proof. rewrite hex_cons. reflexivity. Qed.

Lemma digest_of_cons (s : Sha256.state) :
  exists x rest, Sha256.digest_of s = x :: rest.
Proof. unfold Sha256.digest_of, Sha256.be32. eexists. eexists. reflexivity. Qed.

(** A digest is never empty, and its hexadecimal form is plain ASCII. *)
Lemma hexdigest_nonempty (key msg : bytes) :
  nonempty (Sha256.hexdigest key msg) = true.
Proof.
  unfold Sha256.hexdigest, Sha256.hmac_sha256.
  generalize (if (64 <? Datatypes.length key)%nat then Sha256.sha256 key else key).
  intros key'. unfold Sha256.sha256 at 1.
  match goal with
  | |- context [Sha256.digest_of ?s] =>
      destruct (digest_of_cons s) as [x [rest ->]]
  end.
  apply hex_nonempty.
Qed.

Lemma hexdigest_ascii (key msg : bytes) :
  isascii (Sha256.hexdigest key msg) = true.
Proof. apply hex_ascii. Qed.

Lemma verify_own_signature (secret : string) (body : bytes) :
  verify_plane_signature secret body
    (Some (Sha256.hexdigest (encode_utf8 secret) body)) = Ok true.
Proof.
  unfold verify_plane_signature, compare_digest.
  rewrite hexdigest_nonempty, hexdigest_ascii. cbn [negb andb].
  rewrite String.eqb_refl. reflexivity.
Qed.

(** C8.  A signature computed over the body with the secret verifies, and an
    absent or empty signature is refused, for every secret and body. *)
Theorem C8_verify_plane_signature :
  forall (secret : string) (body : bytes),
    verify_plane_signature secret body
      (Some (Sha256.hexdigest (encode_utf8 secret) body)) = Ok true
    /\ verify_plane_signature secret body None = Ok false
    /\ verify_plane_signature secret body (Some "") = Ok false.
Proof.
  intros secret body.
  split; [apply verify_own_signature | split; reflexivity].
Qed.

Example verify_signed_body :
  verify_plane_signature "secret" (encode_utf8 "{}")
    (Some "77325902caca812dc259733aacd046b73817372c777b8d95b402647474516e13")
  = Ok true.
Proof. vm_compute. reflexivity. Qed.

Example verify_tampered_body :
  verify_plane_signature "secret" (encode_utf8 "{ }")
    (Some "77325902caca812dc259733aacd046b73817372c777b8d95b402647474516e13")
  = Ok false.
Proof. vm_compute. reflexivity. Qed.

(** ** The decision engine: updates *)

Lemma or_default_shown (v : json) (path : list string) (default : string) :
  or_default (string_at v path) default = shown v path default.
Proof.
  unfold or_default, shown. destruct (string_at v path) as [[|c s]|]; reflexivity.
Qed.

Lemma table_get_renamed (field : string) :
  table_get FIELD_CHANGED_RENAMING field field = renamed field.
Proof. reflexivity. Qed.

Lemma length_zero {A : Type} (l : list A) :
  (List.length l =? 0)%nat = match l with [] => true | _ => false end.
Proof. destruct l; reflexivity. Qed.

(** Running a computation that cannot log is running its continuation. *)
Lemma abind_lift_ok {A B : Type} (a : A) (k : A -> act B) :
  abind (lift (Ok a)) k = k a.
Proof. unfold abind, lift. destruct (k a). reflexivity. Qed.

Lemma abind_ret {A B : Type} (a : A) (k : A -> act B) :
  abind (ret a) k = k a.
Proof. unfold abind, ret. destruct (k a). reflexivity. Qed.

Lemma abind_log {B : Type} (lv : level) (text : string) (k : unit -> act B) :
  abind (log lv text) k = (Log lv text :: fst (k tt), snd (k tt)).
Proof. unfold abind, log. destruct (k tt). reflexivity. Qed.

Create Rewrite HintDb plane.
#[local] Hint Rewrite
  get_assignee_name_list_eq get_assignee_id_list_eq is_actor_sole_assignee_eq
  was_non_actor_sole_assignee_removed_eq generate_issue_url_eq
  get_activity_value_eq get_data_value_eq get_actor_value_eq
  @abind_lift_ok @abind_ret @abind_log or_default_shown table_get_renamed : plane.

Ltac run := repeat (progress (autorewrite with plane; cbv beta)).

(** What [handle_issue_updated] does, gate by gate. *)
Lemma handle_issue_updated_eq (config : Config) (payload : json) :
  handle_issue_updated config payload
  = if gate_no_assignees config payload then
      ([Log INFO ("Assignee list is empty and send_notification_with_no_assignees is disabled; "
                  ++ "no non-actor sole assignee was removed. Skipping notification.")],
       Ok None)
    else if gate_actor_is_sole config payload then
      ([Log INFO ("Actor is the sole assignee and send_notification_when_actor_is_sole_assignee "
                  ++ "is disabled. Skipping notification.")],
       Ok None)
    else if gate_field config payload then
      ([Log INFO ("Updated field `" ++ changed_field payload
                  ++ "` is not in issue_updated_notification_fields. "
                  ++ "Skipping notification.")],
       Ok None)
    else
      ([Log INFO "Issue updated event matches configuration. Building notification."],
       Ok (Some (update_message (workspace_url config) payload))).
Proof.
  unfold handle_issue_updated. run. rewrite length_zero.
  fold (actor_is_sole payload). fold (gate_no_assignees config payload).
  destruct (gate_no_assignees config payload); [run; reflexivity|].
  fold (gate_actor_is_sole config payload).
  destruct (gate_actor_is_sole config payload); [run; reflexivity|].
  fold (changed_field payload). fold (gate_field config payload).
  destruct (gate_field config payload); run; reflexivity.
Qed.

Lemma cleared_changed_field (payload : json) :
  sole_non_actor_cleared payload = true ->
  changed_field payload = "assignee_ids"
  /\ listed "id" (assignees payload) = [].
Proof.
  unfold sole_non_actor_cleared, changed_field, shown. intros H.
  apply andb_prop in H. destruct H as [H _].
  apply andb_prop in H. destruct H as [Hfield Hids].
  split.
  - destruct (string_at payload ["activity"; "field"]) as [field|];
      [|discriminate].
    simpl in Hfield. apply String.eqb_eq in Hfield. subst field. reflexivity.
  - destruct (listed "id" (assignees payload)); [reflexivity | discriminate].
Qed.

(** C3, as amended.  With no assignee listed, the sole-assignee-removed
    predicate true and [send_notification_with_no_assignees] off, the first
    gate does not suppress; the update is notified whenever [assignee_ids]
    is among the notified fields. *)
Theorem C3_override_defeats_empty_gate :
  forall (config : Config) (payload : json),
    get_assignee_name_list_from_payload payload = Ok [] ->
    was_non_actor_sole_assignee_removed payload = Ok true ->
    config_get (send_notification_with_no_assignees config) false = false ->
    mem "assignee_ids"
        (config_get (issue_updated_notification_fields config) []) = true ->
    gate_no_assignees config payload = false
    /\ handle_issue_updated config payload
       = ([Log INFO "Issue updated event matches configuration. Building notification."],
          Ok (Some (update_message (workspace_url config) payload))).
Proof.
  intros config payload Hnames Hremoved Hsend Hfields.
  rewrite was_non_actor_sole_assignee_removed_eq in Hremoved.
  injection Hremoved as Hremoved.
  destruct (cleared_changed_field payload Hremoved) as [Hfield Hids].
  assert (G1 : gate_no_assignees config payload = false).
  { unfold gate_no_assignees. rewrite Hremoved.
    destruct (listed "display_name" (assignees payload)); reflexivity. }
  assert (G2 : gate_actor_is_sole config payload = false).
  { unfold gate_actor_is_sole, actor_is_sole. rewrite Hids.
    destruct (string_at payload ["activity"; "actor"; "id"]); reflexivity. }
  assert (G3 : gate_field config payload = false).
  { unfold gate_field. rewrite Hfield, Hfields. reflexivity. }
  split; [exact G1|].
  rewrite handle_issue_updated_eq, G1, G2, G3. reflexivity.
Qed.

Lemma C3_override_witness :
  gate_no_assignees (settings ["assignee_ids"]) (cleared_by (JStr "user-42") "user-7")
  = false
  /\ handle_issue_updated (settings ["assignee_ids"])
       (cleared_by (JStr "user-42") "user-7")
     = ([Log INFO "Issue updated event matches configuration. Building notification."],
        Ok (Some (update_message "https://x" (cleared_by (JStr "user-42") "user-7")))).
Proof.
  apply (C3_override_defeats_empty_gate
           (settings ["assignee_ids"]) (cleared_by (JStr "user-42") "user-7"));
    reflexivity.
Defined.

(** C3, as stated, fails: with the override true and the switch off, an
    update is still suppressed, by the third gate, when [assignee_ids] is
    not a notified field. *)
Lemma C3_field_gate_counterexample :
  let config := settings ["target_date"] in
  let payload := cleared_by (JStr "user-42") "user-7" in
  get_assignee_name_list_from_payload payload = Ok []
  /\ was_non_actor_sole_assignee_removed payload = Ok true
  /\ config_get (send_notification_with_no_assignees config) false = false
  /\ handle_issue_updated config payload
     = ([Log INFO ("Updated field `assignee_ids` is not in "
                   ++ "issue_updated_notification_fields. Skipping notification.")],
        Ok None).
Proof. repeat split; reflexivity. Qed.

Lemma id_only_entries (items : list json) :
  Forall id_only items ->
  listed "display_name" items = []
  /\ List.length (listed "id" items) = List.length items.
Proof.
  induction 1 as [|item rest [d [-> [Hid Hname]]] _ [IHn IHi]];
    [split; reflexivity|].
  apply dict_has_get in Hid. destruct Hid as [v Hv].
  apply dict_has_none in Hname.
  unfold listed in *. simpl. rewrite Hname, Hv. simpl.
  split; [exact IHn | rewrite IHi; reflexivity].
Qed.

(** C4.  The first gate reads the display names.  When every entry of
    [data.assignees] has an id and no display name (and there is an entry),
    the name list is empty while the id list is not; the override is then
    false, and with [send_notification_with_no_assignees] off the update is
    suppressed by the first gate. *)
Theorem C4_gate_reads_display_names :
  forall (config : Config) (payload : json) (entries : list json),
    at_path payload ["data"; "assignees"] (JList entries) ->
    entries <> [] ->
    Forall id_only entries ->
    get_assignee_name_list_from_payload payload = Ok []
    /\ (exists first rest,
           _get_assignee_id_list_from_payload payload = Ok (first :: rest))
    /\ was_non_actor_sole_assignee_removed payload = Ok false
    /\ (config_get (send_notification_with_no_assignees config) false = false ->
        handle_issue_updated config payload
        = ([Log INFO ("Assignee list is empty and send_notification_with_no_assignees is disabled; "
                      ++ "no non-actor sole assignee was removed. Skipping notification.")],
           Ok None)).
Proof.
  intros config payload entries Hat Hne Hall.
  apply value_at_some in Hat.
  assert (Hassignees : assignees payload = entries).
  { unfold assignees. rewrite Hat. reflexivity. }
  destruct (id_only_entries entries Hall) as [Hnames Hlen].
  rewrite get_assignee_name_list_eq, get_assignee_id_list_eq,
    was_non_actor_sole_assignee_removed_eq, handle_issue_updated_eq.
  unfold gate_no_assignees, sole_non_actor_cleared.
  rewrite Hassignees, Hnames.
  destruct (listed "id" entries) as [|first rest] eqn:Hids.
  - destruct entries; [congruence | discriminate].
  - rewrite andb_false_r. simpl.
    repeat split; eauto.
    intros ->. reflexivity.
Qed.

Lemma C4_gate_reads_display_names_witness :
  get_assignee_name_list_from_payload assigned_by_id_only = Ok []
  /\ (exists first rest,
         _get_assignee_id_list_from_payload assigned_by_id_only = Ok (first :: rest))
  /\ was_non_actor_sole_assignee_removed assigned_by_id_only = Ok false
  /\ (config_get (send_notification_with_no_assignees (settings ["priority"])) false
      = false ->
      handle_issue_updated (settings ["priority"]) assigned_by_id_only
      = ([Log INFO ("Assignee list is empty and send_notification_with_no_assignees is disabled; "
                    ++ "no non-actor sole assignee was removed. Skipping notification.")],
         Ok None)).
Proof.
  apply (C4_gate_reads_display_names (settings ["priority"]) assigned_by_id_only
           [JDict [("id", JStr "user-42")]]).
  - apply value_at_some. reflexivity.
  - discriminate.
  - constructor; [|constructor].
    exists [("id", JStr "user-42")]. repeat split; reflexivity.
Defined.

Example id_only_issue_is_suppressed :
  handle_issue_updated (settings ["priority"]) assigned_by_id_only
  = ([Log INFO ("Assignee list is empty and send_notification_with_no_assignees is disabled; "
                ++ "no non-actor sole assignee was removed. Skipping notification.")],
     Ok None)
  /\ _get_assignee_id_list_from_payload assigned_by_id_only = Ok ["user-42"].
Proof. split; reflexivity. Qed.

(** ** The update message *)

Lemma contains_here (needle s : string) :
  String.prefix needle s = true -> contains needle s = true.
Proof.
  intros H. destruct s; unfold contains; fold contains; rewrite H; reflexivity.
Qed.

Lemma contains_app_r (needle s t : string) :
  contains needle t = true -> contains needle (s ++ t) = true.
Proof.
  intros H. induction s as [|c s IH]; [exact H|].
  simpl. rewrite IH. apply orb_true_r.
Qed.

Lemma prefix_app (needle rest : string) : String.prefix needle (needle ++ rest) = true.
Proof.
  induction needle as [|c needle IH]; [destruct rest; reflexivity|].
  simpl. destruct (ascii_dec c c) as [_|n]; [exact IH | congruence].
Qed.




Example due_date_message :
  handle_issue_updated (settings ["target_date"])
    (due_date_moved (JDict [("id", JStr "I1"); ("project", JStr "P1");
                            ("name", JStr "Fix bug");
                            ("assignees",
                              JList [JDict [("display_name", JStr "Alice")]])]))
  = ([Log INFO "Issue updated event matches configuration. Building notification."],
     Ok (Some ("Task: **[Fix bug](https://x/projects/P1/issues/I1)** " ++ SEPARATOR
               ++ " **due date** updated by **Unknown user**" ++ LF ++ LF
               ++ "- **New:** `2024-02-01`" ++ LF
               ++ "- **Old:** `2024-01-01`" ++ LF))).
Proof. reflexivity. Qed.

(** Scenario C: the same update with other fields notified gives nothing. *)
Example due_date_not_notified :
  snd (handle_issue_updated (settings ["priority"])
         (due_date_moved (JDict [("assignees",
                                   JList [JDict [("display_name", JStr "Alice")]])])))
  = Ok None.
Proof. reflexivity. Qed.

(** ** The dispatcher *)

Lemma abind_emit {B : Type} (ev : event) (k : unit -> act B) :
  abind (emit ev) k = (ev :: fst (k tt), snd (k tt)).
Proof. unfold abind, emit. destruct (k tt). reflexivity. Qed.

#[local] Hint Rewrite @abind_emit : plane.

(** A message that is not empty is logged, handed to the client once, and
    the request is answered after the client's answer. *)
Lemma deliver_sends (rt : Runtime) (config : Config) (message : string) :
  nonempty message = true ->
  In (SendMarkdown (room_id config) message "m.text")
     (fst (deliver rt config (Some message)))
  /\ outcome (deliver rt config (Some message)) <> Some NoMessage
  /\ outcome (deliver rt config (Some message)) <> None.
Proof.
  intros Hne. unfold deliver. cbn [truthy]. rewrite Hne. cbn [negb]. run.
  destruct (send_markdown rt (room_id config) message "m.text"); run;
    (split; [simpl; auto | split; discriminate]).
Qed.

(** Nothing is handed to the client when there is no message. *)
Lemma deliver_nothing (rt : Runtime) (config : Config) (message : option string) :
  truthy message = false ->
  deliver rt config message
  = ([Log INFO "No message to send. Message contents empty."],
     Ok (json_response [("status", "ok")] 200)).
Proof. intros H. unfold deliver. rewrite H. reflexivity. Qed.

Lemma dispatch_eq (rt : Runtime) (config : Config) (payload : json)
      (trace : list event) (message : option string) :
  route config payload = (trace, Ok message) ->
  dispatch rt config payload
  = ((trace ++ fst (deliver rt config message))%list,
     snd (deliver rt config message)).
Proof.
  intros H. unfold dispatch, abind. rewrite H.
  destruct (deliver rt config message). reflexivity.
Qed.

(** Every pair of event and action without a handler leaves the message at
    its initial value, [test]. *)
Lemma route_unhandled (config : Config) (d : list (string * json)) :
  let event_type := match dict_get d "event" with Some v => v | None => JNull end in
  let action_type := match dict_get d "action" with Some v => v | None => JNull end in
  handled event_type action_type = false ->
  exists trace, route config (JDict d) = (trace, Ok (Some "test")).
Proof.
  cbv zeta. unfold handled, route, py_get.
  set (event_type := match dict_get d "event" with Some v => v | None => JNull end).
  set (action_type := match dict_get d "action" with Some v => v | None => JNull end).
  replace (match dict_get d "event" with Some v => Ok v | None => Ok JNull end)
    with (Ok event_type) by (unfold event_type; destruct (dict_get d "event"); reflexivity).
  replace (match dict_get d "action" with Some v => Ok v | None => Ok JNull end)
    with (Ok action_type) by (unfold action_type; destruct (dict_get d "action"); reflexivity).
  run.
  destruct (eq_str event_type "issue");
    [|destruct (eq_str event_type "issue_comment")];
    (destruct (eq_str action_type "created");
     [|destruct (eq_str action_type "updated")]);
    cbn [andb orb]; intros H; try discriminate H; run; eexists; reflexivity.
Qed.

Lemma dispatch_unhandled :
  forall (rt : Runtime) (config : Config) (d : list (string * json)),
    handled (match dict_get d "event" with Some v => v | None => JNull end)
            (match dict_get d "action" with Some v => v | None => JNull end)
    = false ->
    In (SendMarkdown (room_id config) "test" "m.text")
       (fst (dispatch rt config (JDict d)))
    /\ outcome (dispatch rt config (JDict d)) <> Some NoMessage.
Proof.
  intros rt config d H.
  destruct (route_unhandled config d H) as [trace Hroute].
  rewrite (dispatch_eq rt config (JDict d) trace (Some "test") Hroute).
  destruct (deliver_sends rt config "test" eq_refl) as [Hin [Hout Hsome]].
  split.
  - cbn [fst]. apply in_or_app. right. exact Hin.
  - intros Habs. apply Hout.
    destruct (deliver rt config (Some "test")) as [t [r|e]];
      cbn [fst snd] in *; [|discriminate].
    unfold outcome in *.
    destruct (status r =? 403)%Z; [discriminate|].
    destruct (status r =? 400)%Z; [discriminate|].
    destruct (status r =? 500)%Z; [discriminate|].
    rewrite existsb_app in Habs.
    destruct (existsb sent t); [|reflexivity].
    rewrite orb_true_r in Habs. discriminate.
Qed.

(** X1.  A payload that is a JSON object and whose event and action have no
    handler is answered by sending [test] to the room. *)
Theorem unhandled_pair_sends_test :
  forall (rt : Runtime) (config : Config) (d : list (string * json)),
    handled (match dict_get d "event" with Some v => v | None => JNull end)
            (match dict_get d "action" with Some v => v | None => JNull end)
    = false ->
    In (SendMarkdown (room_id config) "test" "m.text")
       (fst (dispatch rt config (JDict d)))
    /\ outcome (dispatch rt config (JDict d)) <> Some NoMessage.
Proof. exact dispatch_unhandled. Qed.

Lemma unhandled_pair_sends_test_witness :
  In (SendMarkdown "!room:example.org" "test" "m.text")
     (fst (dispatch stand_in (settings []) unhandled_event))
  /\ outcome (dispatch stand_in (settings []) unhandled_event) <> Some NoMessage.
Proof.
  apply (unhandled_pair_sends_test stand_in (settings [])
           [("event", JStr "project"); ("action", JStr "created")]).
  reflexivity.
Defined.

(** C1, at an input the code receives: the event [project] with the action
    [created] has no handler, yet whatever the collaborators answer the
    dispatcher hands the message [test] to the client, and the request does
    not end with the no-message outcome. *)
Theorem C1_unhandled_event_sends_test :
  forall (rt : Runtime) (config : Config),
    route config unhandled_event
    = ([Log INFO "Unhandled Plane event_type=project"], Ok (Some "test"))
    /\ In (SendMarkdown (room_id config) "test" "m.text")
          (fst (dispatch rt config unhandled_event))
    /\ outcome (dispatch rt config unhandled_event) <> Some NoMessage.
Proof.
  intros rt config. split; [reflexivity|].
  apply (dispatch_unhandled rt config
           [("event", JStr "project"); ("action", JStr "created")]).
  reflexivity.
Qed.

(** The whole request, signed, through the stand-in collaborators. *)
Example unhandled_request_delivers_test :
  webhook stand_in (settings []) (signed (settings []) unhandled_body)
  = ([Log INFO "{'event': 'project', 'action': 'created'}";
      Log INFO "Unhandled Plane event_type=project";
      Log INFO "Sending message (m.text) to room !room:example.org: test";
      SendMarkdown "!room:example.org" "test" "m.text"],
     Ok (json_response [("status", "ok")] 200))
  /\ outcome (webhook stand_in (settings []) (signed (settings []) unhandled_body))
     = Some Delivered.
Proof. vm_compute. split; reflexivity. Qed.

(** ** Authentication *)

Lemma webhook_refused (rt : Runtime) (config : Config) (request : Request) :
  verify_plane_signature (secret config) (body_bytes request)
    (Some (match x_plane_signature request with Some v => v | None => "" end))
  = Ok false ->
  webhook rt config request
  = ([], Ok (json_response [("status", "unauthorized")] 403)).
Proof. intros H. unfold webhook. rewrite H. reflexivity. Qed.

Lemma verify_mismatch (secret : string) (body : bytes) (signature : string) :
  isascii signature = true ->
  signature <> Sha256.hexdigest (encode_utf8 secret) body ->
  verify_plane_signature secret body (Some signature) = Ok false.
Proof.
  intros Hascii Hdiff. unfold verify_plane_signature, compare_digest.
  destruct (nonempty signature); [|reflexivity]. cbn [negb].
  rewrite hexdigest_ascii, Hascii. cbn [andb].
  destruct (String.eqb_spec (Sha256.hexdigest (encode_utf8 secret) body) signature)
    as [E|E]; [congruence | reflexivity].
Qed.

(** X2.  A request with no signature header, or with an ASCII signature that
    is not the digest of its body, is answered [unauthorized] with status 403:
    nothing is parsed, logged or sent, whatever the collaborators are. *)
Theorem bad_signature_is_unauthorized :
  forall (rt : Runtime) (config : Config) (request : Request),
    (x_plane_signature request = None
     \/ exists signature,
          x_plane_signature request = Some signature
          /\ isascii signature = true
          /\ signature
             <> Sha256.hexdigest (encode_utf8 (secret config)) (body_bytes request)) ->
    webhook rt config request
    = ([], Ok (json_response [("status", "unauthorized")] 403))
    /\ outcome (webhook rt config request) = Some Unauthorized.
Proof.
  intros rt config request H.
  assert (E : webhook rt config request
              = ([], Ok (json_response [("status", "unauthorized")] 403))).
  { apply webhook_refused.
    destruct H as [-> | [signature [-> [Hascii Hdiff]]]];
      [reflexivity | apply verify_mismatch; assumption]. }
  rewrite E. split; reflexivity.
Qed.

Lemma bad_signature_is_unauthorized_witness :
  webhook stand_in (settings [])
    {| body_bytes := unhandled_body; x_plane_signature := Some "0123abcd" |}
  = ([], Ok (json_response [("status", "unauthorized")] 403))
  /\ outcome (webhook stand_in (settings [])
                {| body_bytes := unhandled_body;
                   x_plane_signature := Some "0123abcd" |})
     = Some Unauthorized.
Proof.
  apply (bad_signature_is_unauthorized stand_in (settings [])
           {| body_bytes := unhandled_body; x_plane_signature := Some "0123abcd" |}).
  right. exists "0123abcd". repeat split. vm_compute. discriminate.
Defined.

(** C9, at an input the code receives: a signature header holding a
    character beyond ASCII.  The comparison raises, so the request ends in
    an exception and not in the unauthorized answer; nothing was parsed,
    logged or sent. *)
Theorem C9_accented_signature_raises :
  forall (rt : Runtime) (config : Config) (body : bytes),
    let request := {| body_bytes := body;
                      x_plane_signature := Some accented_signature |} in
    webhook rt config request = ([], Raise TypeError)
    /\ outcome (webhook rt config request) <> Some Unauthorized.
Proof.
  intros rt config body request.
  assert (E : webhook rt config request = ([], Raise TypeError)).
  { unfold webhook, request, verify_plane_signature, compare_digest.
    cbn [x_plane_signature body_bytes accented_signature nonempty negb].
    replace (isascii accented_signature) with false by reflexivity.
    rewrite andb_false_r. reflexivity. }
  rewrite E. split; [reflexivity | discriminate].
Qed.

(** X3.  A signed body that is not JSON is answered [bad json] with status
    400, and no handler runs. *)
Theorem bad_json_is_rejected :
  forall (rt : Runtime) (config : Config) (body : bytes),
    json_loads rt body = Raise JSONDecodeError ->
    webhook rt config (signed config body)
    = ([Log WARNING "Invalid JSON from Plane"],
       Ok (json_response [("status", "bad json")] 400))
    /\ outcome (webhook rt config (signed config body)) = Some BadPayload.
Proof.
  intros rt config body H.
  assert (E : webhook rt config (signed config body)
              = ([Log WARNING "Invalid JSON from Plane"],
                 Ok (json_response [("status", "bad json")] 400))).
  { unfold webhook, signed. cbn [x_plane_signature body_bytes].
    rewrite verify_own_signature. cbn [lift abind negb app]. rewrite H.
    reflexivity. }
  rewrite E. split; reflexivity.
Qed.

Lemma bad_json_is_rejected_witness :
  webhook stand_in (settings []) (signed (settings []) (encode_utf8 "{"))
  = ([Log WARNING "Invalid JSON from Plane"],
     Ok (json_response [("status", "bad json")] 400))
  /\ outcome (webhook stand_in (settings []) (signed (settings []) (encode_utf8 "{")))
     = Some BadPayload.
Proof.
  apply (bad_json_is_rejected stand_in (settings []) (encode_utf8 "{")).
  reflexivity.
Defined.

(** X4.  With the notified-fields setting a list of strings, or unset and
    so read as the empty list, [handle_issue_updated] never raises, and
    writes one line to the log whatever it decides. *)
Theorem handle_issue_updated_total :
  forall (config : Config) (payload : json) (fields : list string),
    config_get (issue_updated_notification_fields config) [] = fields ->
    exists (line : string) (answer : option string),
      handle_issue_updated config payload = ([Log INFO line], Ok answer).
Proof.
  intros config payload fields _. rewrite handle_issue_updated_eq.
  destruct (gate_no_assignees config payload); [eauto|].
  destruct (gate_actor_is_sole config payload); [eauto|].
  destruct (gate_field config payload); eauto.
Qed.

Lemma handle_issue_updated_total_witness :
  exists (line : string) (answer : option string),
    handle_issue_updated (settings ["target_date"])
      (cleared_by (JStr "user-42") "user-7")
    = ([Log INFO line], Ok answer).
Proof.
  apply (handle_issue_updated_total (settings ["target_date"])
           (cleared_by (JStr "user-42") "user-7") ["target_date"]).
  reflexivity.
Defined.

(** ** The specification's scenarios, run *)

Example nested_value_samples :
  let payload := cleared_by (JStr "user-42") "user-7" in
  _get_nested_value payload ["activity"; "actor"; "id"] None JNull = Ok (JStr "user-7")
  /\ _get_nested_value payload ["activity"; "field"; "id"] None JNull = Ok JNull
  /\ _get_nested_value payload ["activity"; "missing"] None (JInt 0) = Ok (JInt 0)
  /\ _get_nested_value payload ["data"; "assignees"] (Some (Class TStr)) JNull = Ok JNull
  /\ _get_nested_value (JList []) ["data"] None JNull = Ok JNull.
Proof. repeat split; reflexivity. Qed.

Example sole_assignee_samples :
  let issue (assignee_ids : list json) :=
    JDict [("data", JDict [("assignees", JList assignee_ids)]);
           ("activity", JDict [("actor", JDict [("id", JStr "user-7")])])] in
  let assignee (id : json) := JDict [("id", id)] in
  is_actor_sole_assignee (issue []) = Ok false
  /\ is_actor_sole_assignee (issue [assignee (JStr "user-7")]) = Ok true
  /\ is_actor_sole_assignee (issue [assignee (JStr "user-42")]) = Ok false
  /\ is_actor_sole_assignee (issue [assignee (JStr "user-7"); assignee (JStr "user-42")])
     = Ok false
  /\ is_actor_sole_assignee (issue [assignee (JInt 7)]) = Ok false.
Proof. repeat split; reflexivity. Qed.

Example sole_assignee_removed_samples :
  was_non_actor_sole_assignee_removed (cleared_by (JStr "user-42") "user-7") = Ok true
  /\ was_non_actor_sole_assignee_removed (cleared_by (JStr "user-42") "user-42") = Ok false
  /\ was_non_actor_sole_assignee_removed (cleared_by (JList [JStr "a"; JStr "b"]) "user-7")
     = Ok false
  /\ was_non_actor_sole_assignee_removed (cleared_by (JStr "a, b") "user-7") = Ok false.
Proof. repeat split; reflexivity. Qed.

(** Scenario A: a created issue. *)
Example issue_created_message :
  handle_issue_created (settings [])
    (JDict [("event", JStr "issue"); ("action", JStr "created");
            ("data", JDict [("name", JStr "Fix bug"); ("priority", JStr "High");
                            ("target_date", JStr "2024-01-01");
                            ("assignees", JList [JDict [("display_name", JStr "Alice")]])]);
            ("activity", JDict [("actor", JDict [("display_name", JStr "Bob")])])])
  = ([], Ok ("**New task created** by **Bob**" ++ LF ++ LF
             ++ "- **Title & Link:** [Fix bug](https://x/projects/None/issues/None)" ++ LF
             ++ "- **Priority:** High" ++ LF
             ++ "- **Due date:** 2024-01-01" ++ LF
             ++ "- **Assignees:** Alice" ++ LF)).
Proof. reflexivity. Qed.

(** * Further properties of the code *)

(** ** The signature verifier, completely *)

Lemma length_app_string (s t : string) :
  String.length (s ++ t) = String.length s + String.length t.
Proof. induction s as [|c s IH]; [reflexivity | simpl; rewrite IH; reflexivity]. Qed.

Lemma hex_length (data : bytes) : String.length (hex data) = 2 * List.length data.
Proof.
  induction data as [|x rest IH]; [reflexivity|].
  rewrite hex_cons, length_app_string, IH. simpl. lia.
Qed.

Lemma all_chars_app (test : ascii -> bool) (s t : string) :
  all_chars test (s ++ t) = all_chars test s && all_chars test t.
Proof.
  induction s as [|c s IH]; [reflexivity|].
  simpl. rewrite IH. apply andb_assoc.
Qed.

Lemma hex_digit_hex_char (n : N) : hex_char (hex_digit n) = true.
Proof.
  unfold hex_digit. generalize (N.to_nat n) as k. intros k.
  do 16 (destruct k as [|k]; [reflexivity|]). reflexivity.
Qed.

Lemma hex_all_hex (data : bytes) : all_chars hex_char (hex data) = true.
Proof.
  induction data as [|x rest IH]; [reflexivity|].
  rewrite hex_cons, all_chars_app, IH. unfold hex2. simpl.
  rewrite !hex_digit_hex_char. reflexivity.
Qed.

Lemma sha256_length (msg : bytes) : List.length (Sha256.sha256 msg) = 32.
Proof. reflexivity. Qed.

Lemma hexdigest_length (key msg : bytes) :
  String.length (Sha256.hexdigest key msg) = 64.
Proof.
  unfold Sha256.hexdigest, Sha256.hmac_sha256.
  rewrite hex_length, sha256_length. reflexivity.
Qed.

Lemma verify_plane_signature_eq (secret : string) (body : bytes) (signature : string) :
  verify_plane_signature secret body (Some signature)
  = if nonempty signature then
      if isascii signature
      then Ok (String.eqb (Sha256.hexdigest (encode_utf8 secret) body) signature)
      else Raise TypeError
    else Ok false.
Proof.
  unfold verify_plane_signature, compare_digest.
  destruct (nonempty signature); [|reflexivity]. cbn [negb].
  rewrite hexdigest_ascii. reflexivity.
Qed.

Lemma ok_inj {A : Type} (x y : A) : Ok x = Ok y -> x = y.
Proof. congruence. Qed.

Lemma some_inj {A : Type} (x y : A) : Some x = Some y -> x = y.
Proof. congruence. Qed.

(** X5.  The verifier accepts one signature only: the hexadecimal
    HMAC-SHA256 of the body under the secret, which is 64 lower-case
    hexadecimal digits.  Upper-case digits, a prefix such as [sha256=], or
    surrounding blanks are not accepted. *)
Theorem verify_accepts_only_the_digest :
  forall (secret : string) (body : bytes),
    let digest := Sha256.hexdigest (encode_utf8 secret) body in
    (forall received_sig,
        verify_plane_signature secret body received_sig = Ok true
        <-> received_sig = Some digest)
    /\ String.length digest = 64
    /\ all_chars hex_char digest = true.
Proof.
  intros secret body digest. split; [|split].
  - intros [signature|]; split; intros H; try discriminate.
    + rewrite verify_plane_signature_eq in H.
      destruct (nonempty signature); [|discriminate].
      destruct (isascii signature); [|discriminate].
      apply ok_inj in H. apply String.eqb_eq in H. subst signature. reflexivity.
    + apply some_inj in H. subst signature. apply verify_own_signature.
  - apply hexdigest_length.
  - apply hex_all_hex.
Qed.

(** X6.  The verifier raises in one case only, and then a [TypeError]: a
    signature that is not empty and holds a character beyond ASCII.  On
    every other input it answers true or false. *)
Theorem verify_raises_only_beyond_ascii :
  forall (secret : string) (body : bytes) (received_sig : option string) (e : exn),
    verify_plane_signature secret body received_sig = Raise e
    <-> e = TypeError
        /\ exists signature,
             received_sig = Some signature
             /\ signature <> "" /\ isascii signature = false.
Proof.
  intros secret body [signature|] e; split.
  - rewrite verify_plane_signature_eq.
    destruct signature as [|c rest]; [discriminate|]. cbn [nonempty].
    destruct (isascii (String c rest)) eqn:Ha; [discriminate|].
    intros H. assert (e = TypeError) as -> by congruence.
    split; [reflexivity|].
    exists (String c rest). split; [reflexivity|]. split; [discriminate | exact Ha].
  - intros [-> [s [Hs [Hne Ha]]]]. apply some_inj in Hs. subst s.
    rewrite verify_plane_signature_eq, Ha.
    destruct signature; [congruence | reflexivity].
  - discriminate.
  - intros [_ [s [Hs _]]]. discriminate.
Qed.

(** ** The accessors, completely *)

(** X7.  Each of the three typed accessors never raises, and returns a
    string exactly when the payload holds that string at the accessor's
    path; a missing key, a node that is not a map, and a value of another
    type (a number, a list, null) all read as [None]. *)
Theorem typed_accessors_read_strings_only :
  forall (payload : json) (key : string),
    (exists r, get_actor_value_from_payload payload key = Ok r
               /\ forall s, r = Some s
                            <-> at_path payload ["activity"; "actor"; key] (JStr s))
    /\ (exists r, get_activity_value_from_payload payload key = Ok r
                  /\ forall s, r = Some s
                               <-> at_path payload ["activity"; key] (JStr s))
    /\ (exists r, get_data_value_from_payload payload key = Ok r
                  /\ forall s, r = Some s
                               <-> at_path payload ["data"; key] (JStr s)).
Proof.
  intros payload key.
  rewrite get_actor_value_eq, get_activity_value_eq, get_data_value_eq.
  repeat split; eexists; (split; [reflexivity | intros s; apply string_at_path]).
Qed.

Lemma value_at_app (first : list string) :
  forall (payload : json) (second : list string),
    value_at payload (first ++ second)%list
    = match value_at payload first with
      | Some v => value_at v second
      | None => None
      end.
Proof.
  induction first as [|key rest IH]; intros payload second; [reflexivity|].
  destruct payload; try reflexivity.
  simpl. destruct (dict_get d key) as [child|]; [apply IH | reflexivity].
Qed.

(** X8.  Paths compose: when the first part of a path leads to a value,
    looking up the whole path in the payload is looking up the rest in that
    value; when the first part breaks, the whole path gives the default. *)
Theorem get_nested_value_composes :
  forall (payload : json) (first second : list string)
         (expected_type : option type_spec) (default : json),
    (forall v, at_path payload first v ->
               _get_nested_value payload (first ++ second)%list expected_type default
               = _get_nested_value v second expected_type default)
    /\ (broken payload first ->
        _get_nested_value payload (first ++ second)%list expected_type default
        = Ok default).
Proof.
  intros payload first second expected_type default. split.
  - intros v Hv. apply value_at_some in Hv.
    rewrite !get_nested_value_eq, value_at_app, Hv. reflexivity.
  - intros Hb. apply value_at_none in Hb.
    rewrite get_nested_value_eq, value_at_app, Hb. reflexivity.
Qed.

(** X9.  With an expected type, what [_get_nested_value] returns is of that
    type or is the default: a caller that passes a default of the expected
    type always receives a value of that type. *)
Theorem get_nested_value_is_typed :
  forall (payload : json) (path : list string) (spec : type_spec) (default : json),
    exists r,
      _get_nested_value payload path (Some spec) default = Ok r
      /\ (isinstance_of r spec = true \/ r = default)
      /\ (isinstance_of default spec = true -> isinstance_of r spec = true).
Proof.
  intros payload path spec default. rewrite get_nested_value_eq.
  eexists. split; [reflexivity|].
  destruct (value_at payload path) as [v|]; [|split; auto].
  destruct (isinstance_of v spec) eqn:E; split; auto.
Qed.

(** ** The assignee lists, completely *)

Lemma listed_In (key : string) (items : list json) (s : string) :
  In s (listed key items)
  <-> exists d v, In (JDict d) items /\ dict_get d key = Some v /\ py_str v = s.
Proof.
  unfold listed. rewrite in_flat_map. split.
  - intros [item [Hin Hs]]. destruct item; try contradiction.
    simpl in Hs. destruct (dict_get d key) as [v|] eqn:E; [|contradiction].
    destruct Hs as [Hs|[]]. exists d, v. auto.
  - intros [d [v [Hin [Hget Hs]]]]. exists (JDict d). split; [exact Hin|].
    simpl. rewrite Hget. left. exact Hs.
Qed.

Lemma listed_length (key : string) (items : list json) :
  List.length (listed key items) <= List.length items.
Proof.
  induction items as [|item rest IH]; [reflexivity|].
  unfold listed in *. simpl. rewrite length_app.
  assert (List.length (entry key item) <= 1).
  { destruct item; simpl; try lia. destruct (dict_get d key); simpl; lia. }
  lia.
Qed.

(** X10.  The two assignee lists never raise.  When [data.assignees] is a
    list, a string is in the name list (the id list) exactly when some entry
    is a map that holds [display_name] (holds [id]) with that string as its
    text, so entries of any other shape are skipped, and neither list is
    longer than [data.assignees].  When [data.assignees] is missing or is
    not a list, both lists are empty. *)
Theorem assignee_lists_membership :
  forall payload : json,
    exists names ids,
      get_assignee_name_list_from_payload payload = Ok names
      /\ _get_assignee_id_list_from_payload payload = Ok ids
      /\ (forall entries,
            at_path payload ["data"; "assignees"] (JList entries) ->
            (forall s, In s names
                       <-> exists d v, In (JDict d) entries
                                       /\ dict_get d "display_name" = Some v
                                       /\ py_str v = s)
            /\ (forall s, In s ids
                          <-> exists d v, In (JDict d) entries
                                          /\ dict_get d "id" = Some v
                                          /\ py_str v = s)
            /\ List.length names <= List.length entries
            /\ List.length ids <= List.length entries)
      /\ ((forall entries, ~ at_path payload ["data"; "assignees"] (JList entries)) ->
          names = [] /\ ids = []).
Proof.
  intros payload.
  rewrite get_assignee_name_list_eq, get_assignee_id_list_eq.
  eexists. eexists. split; [reflexivity|]. split; [reflexivity|]. split.
  - intros entries Hat. apply value_at_some in Hat.
    unfold assignees. rewrite Hat.
    repeat split; try apply listed_In; apply listed_length.
  - intros Hnone. unfold assignees.
    destruct (value_at payload ["data"; "assignees"]) as [v|] eqn:E;
      [|split; reflexivity].
    destruct v; try (split; reflexivity).
    apply value_at_some in E. destruct (Hnone _ E).
Qed.

(** ** The ids of a previous value *)

Lemma split_pieces_free (sep : ascii) (s : string) :
  forall piece, In piece (split sep s) -> mem_char sep piece = false.
Proof.
  induction s as [|c r IH]; intros piece Hin.
  - destruct Hin as [<-|[]]. reflexivity.
  - simpl in Hin. destruct (Ascii.eqb c sep) eqn:E.
    + destruct Hin as [<-|Hin]; [reflexivity | apply IH; exact Hin].
    + destruct (split sep r) as [|h t] eqn:Es.
      * destruct Hin as [<-|[]]. simpl.
        rewrite Ascii.eqb_sym, E. reflexivity.
      * destruct Hin as [<-|Hin].
        -- simpl. rewrite Ascii.eqb_sym, E. apply IH. left. reflexivity.
        -- apply IH. right. exact Hin.
Qed.

Lemma lstrip_free (c : ascii) (s : string) :
  mem_char c s = false -> mem_char c (lstrip s) = false.
Proof.
  induction s as [|d r IH]; [reflexivity|].
  intros H. simpl. destruct (is_space d); [|exact H].
  simpl in H. apply orb_false_iff in H. apply IH, H.
Qed.

Lemma rstrip_free (c : ascii) (s : string) :
  mem_char c s = false -> mem_char c (rstrip s) = false.
Proof.
  induction s as [|d r IH]; [reflexivity|].
  intros H. simpl in H. apply orb_false_iff in H. destruct H as [Hd Hr].
  simpl. specialize (IH Hr). destruct (rstrip r) as [|e r'].
  - destruct (is_space d); [reflexivity|]. simpl. rewrite Hd. reflexivity.
  - simpl. rewrite Hd. exact IH.
Qed.

Lemma lstrip_firm (s : string) : starts_firm (lstrip s) = true.
Proof.
  induction s as [|c r IH]; [reflexivity|].
  simpl. destruct (is_space c) eqn:E; [exact IH|]. simpl. rewrite E. reflexivity.
Qed.

Lemma lstrip_of_firm (s : string) : starts_firm s = true -> lstrip s = s.
Proof.
  destruct s as [|c r]; [reflexivity|].
  simpl. destruct (is_space c); [discriminate | reflexivity].
Qed.

Lemma rstrip_firm (s : string) : starts_firm s = true -> starts_firm (rstrip s) = true.
Proof.
  destruct s as [|c r]; [reflexivity|].
  simpl. intros H. destruct (rstrip r); [|exact H].
  destruct (is_space c) eqn:E; [reflexivity|]. simpl. rewrite E. reflexivity.
Qed.

Lemma rstrip_idempotent (s : string) : rstrip (rstrip s) = rstrip s.
Proof.
  induction s as [|c r IH]; [reflexivity|].
  simpl. destruct (rstrip r) as [|d r'] eqn:E.
  - destruct (is_space c) eqn:Ec; [reflexivity|]. simpl. rewrite Ec. reflexivity.
  - change (rstrip (String c (String d r'))) with
      (match rstrip (String d r') with
       | EmptyString => if is_space c then EmptyString else String c EmptyString
       | r'' => String c r''
       end).
    rewrite IH. reflexivity.
Qed.

Lemma strip_idempotent (s : string) : strip (strip s) = strip s.
Proof.
  unfold strip.
  rewrite (lstrip_of_firm (rstrip (lstrip s)))
    by (apply rstrip_firm, lstrip_firm).
  apply rstrip_idempotent.
Qed.

Lemma split_of_free (sep : ascii) (s : string) :
  mem_char sep s = false -> split sep s = [s].
Proof.
  induction s as [|c r IH]; [reflexivity|].
  simpl. intros H. apply orb_false_iff in H. destruct H as [Hc Hr].
  rewrite Ascii.eqb_sym, Hc, (IH Hr). reflexivity.
Qed.

Lemma rstrip_of_blank_free (s : string) :
  all_chars (fun c => negb (is_space c)) s = true -> rstrip s = s.
Proof.
  induction s as [|c r IH]; [reflexivity|].
  simpl. intros H. apply andb_prop in H. destruct H as [Hc Hr].
  rewrite (IH Hr). destruct r; [|reflexivity].
  destruct (is_space c); [discriminate | reflexivity].
Qed.

Lemma strip_of_blank_free (s : string) :
  all_chars (fun c => negb (is_space c)) s = true -> strip s = s.
Proof.
  intros H. unfold strip. rewrite lstrip_of_firm.
  - apply rstrip_of_blank_free, H.
  - destruct s; [reflexivity|]. simpl in *. apply andb_prop in H. apply H.
Qed.

Lemma split_pieces_all (test : ascii -> bool) (sep : ascii) (s : string) :
  all_chars test s = true ->
  forall piece, In piece (split sep s) -> all_chars test piece = true.
Proof.
  induction s as [|c r IH]; intros Hall piece Hin.
  - destruct Hin as [<-|[]]. reflexivity.
  - simpl in Hall. apply andb_prop in Hall. destruct Hall as [Hc Hr].
    simpl in Hin. destruct (Ascii.eqb c sep).
    + destruct Hin as [<-|Hin]; [reflexivity | apply (IH Hr), Hin].
    + destruct (split sep r) as [|h t] eqn:Es.
      * destruct Hin as [<-|[]]. simpl. rewrite Hc. reflexivity.
      * destruct Hin as [<-|Hin].
        -- simpl. rewrite Hc. apply (IH Hr). left. reflexivity.
        -- apply (IH Hr). right. exact Hin.
Qed.

Lemma blank_piece (piece : string) :
  all_chars (fun c => is_space c || Ascii.eqb c ",") piece = true ->
  mem_char "," piece = false ->
  all_chars is_space piece = true.
Proof.
  induction piece as [|c r IH]; [reflexivity|].
  cbn [all_chars mem_char]. intros Hall Hfree.
  apply andb_prop in Hall. destruct Hall as [Hc Hr].
  apply orb_false_iff in Hfree. destruct Hfree as [Hcomma Hrest].
  rewrite (IH Hr Hrest), andb_true_r.
  rewrite Ascii.eqb_sym, Hcomma, orb_false_r in Hc. exact Hc.
Qed.

Lemma strip_of_blanks (s : string) : all_chars is_space s = true -> strip s = "".
Proof.
  intros H. unfold strip.
  assert (E : lstrip s = "").
  { induction s as [|c r IH]; [reflexivity|].
    simpl in H. apply andb_prop in H. destruct H as [Hc Hr].
    simpl. rewrite Hc. apply IH, Hr. }
  rewrite E. reflexivity.
Qed.

Lemma filter_none {A : Type} (test : A -> bool) (l : list A) :
  (forall x, In x l -> test x = false) -> filter test l = [].
Proof.
  induction l as [|x rest IH]; [reflexivity|].
  intros H. simpl. rewrite (H x (or_introl eq_refl)).
  apply IH. intros y Hy. apply H. right. exact Hy.
Qed.

(** X11.  The ids parsed from a comma-separated previous value are clean:
    none is empty, none has a blank at either end, none holds a comma.  An
    id that is already clean (not empty, no comma, no blank) parses to
    itself, and every value made of blanks and commas only, the empty value
    among them, parses to no id at all. *)
Theorem split_ids_are_clean :
  (forall (s id : string),
      In id (split_ids s) ->
      id <> "" /\ strip id = id /\ mem_char "," id = false)
  /\ (forall id : string,
        id <> "" -> mem_char "," id = false ->
        all_chars (fun c => negb (is_space c)) id = true ->
        split_ids id = [id])
  /\ (forall s : string,
        all_chars (fun c => is_space c || Ascii.eqb c ",") s = true ->
        split_ids s = []).
Proof.
  split; [|split].
  - intros s id Hin. split; [|split].
    + intros ->. apply split_ids_nonempty in Hin. discriminate.
    + unfold split_ids in Hin. apply in_map_iff in Hin.
      destruct Hin as [raw [<- _]]. apply strip_idempotent.
    + unfold split_ids in Hin. apply in_map_iff in Hin.
      destruct Hin as [raw [<- Hraw]]. apply filter_In in Hraw.
      destruct Hraw as [Hraw _]. apply split_pieces_free in Hraw.
      unfold strip. apply rstrip_free, lstrip_free, Hraw.
  - intros id Hne Hcomma Hblank. unfold split_ids.
    rewrite (split_of_free _ _ Hcomma). simpl.
    rewrite (strip_of_blank_free _ Hblank), (nonempty_true _ Hne). simpl.
    rewrite (strip_of_blank_free _ Hblank). reflexivity.
  - intros s Hall. unfold split_ids.
    rewrite filter_none; [reflexivity|].
    intros piece Hin.
    rewrite strip_of_blanks; [reflexivity|].
    apply blank_piece.
    + apply (split_pieces_all _ "," s Hall piece Hin).
    + apply (split_pieces_free "," s piece Hin).
Qed.

Lemma split_ids_are_clean_witness :
  ("user-42" <> "" /\ strip "user-42" = "user-42" /\ mem_char "," "user-42" = false)
  /\ split_ids "user-42" = ["user-42"]
  /\ split_ids " , ,, " = [].
Proof.
  split; [|split].
  - apply (proj1 split_ids_are_clean " user-42 , " "user-42"). left. reflexivity.
  - apply (proj1 (proj2 split_ids_are_clean) "user-42"); [discriminate | | ];
      reflexivity.
  - apply (proj2 (proj2 split_ids_are_clean) " , ,, "). reflexivity.
Defined.

(** ** The sole-assignee-removed predicate, completely *)

(** X12.  [was_non_actor_sole_assignee_removed] never raises, and answers
    true exactly when: the changed field is [assignee_ids]; no assignee is
    left; the previous value is a string that parses to one id; and the
    actor id is a string, not empty, other than that id.  In particular it
    is false for a previous value that is missing, null, a list or a
    number. *)
Theorem sole_assignee_removed_iff :
  forall payload : json,
    exists answer,
      was_non_actor_sole_assignee_removed payload = Ok answer
      /\ (answer = true
          <-> exists old previous actor,
                at_path payload ["activity"; "field"] (JStr "assignee_ids")
                /\ _get_assignee_id_list_from_payload payload = Ok []
                /\ at_path payload ["activity"; "old_value"] (JStr old)
                /\ split_ids old = [previous]
                /\ at_path payload ["activity"; "actor"; "id"] (JStr actor)
                /\ actor <> "" /\ actor <> previous).
Proof.
  intros payload. rewrite was_non_actor_sole_assignee_removed_eq.
  eexists. split; [reflexivity|].
  rewrite get_assignee_id_list_eq.
  unfold sole_non_actor_cleared, previous_sole_id. split.
  - intros H. apply andb_prop in H. destruct H as [H Hprev].
    apply andb_prop in H. destruct H as [Hfield Hids].
    destruct (string_at payload ["activity"; "field"]) as [field|] eqn:Ef;
      [|discriminate].
    simpl in Hfield. apply String.eqb_eq in Hfield. subst field.
    destruct (listed "id" (assignees payload)) eqn:El; [|discriminate].
    destruct (string_at payload ["activity"; "old_value"]) as [old|] eqn:Eo;
      [|discriminate].
    destruct (split_ids old) as [|previous [|second rest]] eqn:Es;
      try discriminate.
    destruct (string_at payload ["activity"; "actor"; "id"]) as [actor|] eqn:Ea;
      [|discriminate].
    simpl in Hprev. apply andb_prop in Hprev. destruct Hprev as [Hprev Hdiff].
    apply andb_prop in Hprev. destruct Hprev as [Hactor _].
    exists old, previous, actor.
    apply string_at_path in Ef, Eo, Ea.
    repeat split; try assumption.
    + intros ->. discriminate.
    + apply negb_true_iff in Hdiff. apply String.eqb_neq in Hdiff. exact Hdiff.
  - intros [old [previous [actor [Hf [Hids [Ho [Hs [Ha [Hne Hdiff]]]]]]]]].
    apply string_at_path in Hf, Ho, Ha. apply ok_inj in Hids.
    rewrite Hf, Hids, Ho, Hs, Ha. simpl.
    rewrite (nonempty_true _ Hne).
    assert (Hp : nonempty previous = true).
    { apply (split_ids_nonempty old). rewrite Hs. left. reflexivity. }
    rewrite Hp. apply String.eqb_neq in Hdiff. rewrite Hdiff. reflexivity.
Qed.

(** X13.  The two predicates of an update exclude each other: when a sole
    assignee other than the actor was removed, the actor is not the sole
    assignee, so an update that the override lets through the first gate
    is never stopped by the second. *)
Theorem removed_excludes_sole_actor :
  forall payload : json,
    was_non_actor_sole_assignee_removed payload = Ok true ->
    is_actor_sole_assignee payload = Ok false.
Proof.
  intros payload H.
  rewrite was_non_actor_sole_assignee_removed_eq in H. apply ok_inj in H.
  destruct (cleared_changed_field payload H) as [_ Hids].
  rewrite is_actor_sole_assignee_eq, Hids.
  destruct (string_at payload ["activity"; "actor"; "id"]); reflexivity.
Qed.

Lemma removed_excludes_sole_actor_witness :
  is_actor_sole_assignee (cleared_by (JStr "user-42") "user-7") = Ok false.
Proof.
  apply (removed_excludes_sole_actor (cleared_by (JStr "user-42") "user-7")).
  reflexivity.
Defined.

(** X14.  The issue URL never raises and is the workspace URL, [/projects/],
    the project id, [/issues/] and the issue id read from [data.id]; an id
    that is missing or is not a string is written [None], and nothing is
    added to or trimmed from the workspace URL. *)
Theorem generate_issue_url_exact :
  forall (payload : json) (workspace_base_url : string),
    generate_issue_url payload workspace_base_url
    = Ok (workspace_base_url
          ++ "/projects/" ++ printed payload ["data"; "project"]
          ++ "/issues/" ++ printed payload ["data"; "id"])
    /\ (forall project issue,
          at_path payload ["data"; "project"] (JStr project) ->
          at_path payload ["data"; "id"] (JStr issue) ->
          generate_issue_url payload workspace_base_url
          = Ok (workspace_base_url ++ "/projects/" ++ project
                ++ "/issues/" ++ issue))
    /\ ((forall v, ~ at_path payload ["data"] v) ->
        generate_issue_url payload workspace_base_url
        = Ok (workspace_base_url ++ "/projects/None/issues/None")).
Proof.
  intros payload workspace_base_url.
  rewrite generate_issue_url_eq. unfold printed. split; [reflexivity|]. split.
  - intros project issue Hp Hi. apply string_at_path in Hp, Hi.
    rewrite Hp, Hi. reflexivity.
  - intros Hnone. unfold string_at. simpl.
    destruct payload; try reflexivity.
    destruct (dict_get d "data") as [v|] eqn:E; [|reflexivity].
    exfalso. apply (Hnone v). econstructor; [exact E | constructor].
Qed.

(** ** The handlers *)

Lemma generate_comment_url_eq (payload : json) (workspace_base_url : string) :
  generate_comment_url payload workspace_base_url
  = Ok (comment_url workspace_base_url payload).
Proof.
  unfold generate_comment_url, comment_url, printed.
  rewrite !get_data_value_eq. reflexivity.
Qed.

#[local] Hint Rewrite generate_comment_url_eq : plane.

Lemma handle_issue_created_eq (config : Config) (payload : json) :
  handle_issue_created config payload
  = ([], Ok (created_message (workspace_url config) payload)).
Proof.
  unfold handle_issue_created. run. unfold created_message, ret.
  destruct (listed "display_name" (assignees payload)); reflexivity.
Qed.

Lemma handle_issue_comment_eq (config : Config) (payload : json) :
  handle_issue_comment config payload
  = ([], Ok ("[Comment event](" ++ comment_url (workspace_url config) payload ++ ")")).
Proof. unfold handle_issue_comment. run. reflexivity. Qed.

Lemma prefix_refl (s : string) : String.prefix s s = true.
Proof.
  rewrite <- (append_empty_r s) at 2. apply prefix_app.
Qed.

(** X15.  A created issue is never suppressed: [handle_issue_created] never
    raises, logs nothing and always returns a message that is not empty.
    The message ends with the assignee line, which reads [Unassigned] when
    no entry of [data.assignees] has a display name and otherwise the
    display names joined by a comma and a blank. *)
Theorem handle_issue_created_always_answers :
  forall (config : Config) (payload : json),
    exists message,
      handle_issue_created config payload = ([], Ok message)
      /\ message = created_message (workspace_url config) payload
      /\ nonempty message = true
      /\ (get_assignee_name_list_from_payload payload = Ok [] ->
          contains ("- **Assignees:** Unassigned" ++ LF) message = true)
      /\ (forall name names,
            get_assignee_name_list_from_payload payload = Ok (name :: names) ->
            contains ("- **Assignees:** " ++ join ", " (name :: names) ++ LF) message
            = true).
Proof.
  intros config payload. rewrite handle_issue_created_eq.
  eexists. split; [reflexivity|]. split; [reflexivity|]. split; [reflexivity|].
  rewrite get_assignee_name_list_eq. unfold created_message. split.
  - intros H. apply ok_inj in H. rewrite H.
    do 17 apply contains_app_r. reflexivity.
  - intros name names H. apply ok_inj in H. rewrite H.
    do 17 apply contains_app_r. apply contains_here. apply prefix_refl.
Qed.

Lemma listed_app (key : string) (first second : list json) :
  listed key (first ++ second) = (listed key first ++ listed key second)%list.
Proof. unfold listed. apply flat_map_app. Qed.

(** X16.  The assignee lists keep the order of [data.assignees] and keep
    duplicates: the lists of a payload whose assignees are those of a first
    payload followed by those of a second are the lists of the first
    followed by the lists of the second. *)
Theorem assignee_lists_keep_order :
  forall (whole first second : json) (entries1 entries2 : list json),
    at_path first ["data"; "assignees"] (JList entries1) ->
    at_path second ["data"; "assignees"] (JList entries2) ->
    at_path whole ["data"; "assignees"] (JList (entries1 ++ entries2)) ->
    exists names1 names2 ids1 ids2,
      get_assignee_name_list_from_payload first = Ok names1
      /\ get_assignee_name_list_from_payload second = Ok names2
      /\ get_assignee_name_list_from_payload whole = Ok (names1 ++ names2)%list
      /\ _get_assignee_id_list_from_payload first = Ok ids1
      /\ _get_assignee_id_list_from_payload second = Ok ids2
      /\ _get_assignee_id_list_from_payload whole = Ok (ids1 ++ ids2)%list.
Proof.
  intros whole first second entries1 entries2 H1 H2 H.
  apply value_at_some in H1, H2, H.
  rewrite !get_assignee_name_list_eq, !get_assignee_id_list_eq.
  unfold assignees. rewrite H1, H2, H, !listed_app.
  do 4 eexists. repeat split.
Qed.

Lemma assignee_lists_keep_order_witness :
  exists names1 names2 ids1 ids2,
    get_assignee_name_list_from_payload updated_by_sole_assignee = Ok names1
    /\ get_assignee_name_list_from_payload assigned_by_id_only = Ok names2
    /\ get_assignee_name_list_from_payload
         (JDict [("data",
                   JDict [("assignees",
                            JList [JDict [("id", JStr "user-7");
                                          ("display_name", JStr "Bob")];
                                   JDict [("id", JStr "user-42")]])])])
       = Ok (names1 ++ names2)%list
    /\ _get_assignee_id_list_from_payload updated_by_sole_assignee = Ok ids1
    /\ _get_assignee_id_list_from_payload assigned_by_id_only = Ok ids2
    /\ _get_assignee_id_list_from_payload
         (JDict [("data",
                   JDict [("assignees",
                            JList [JDict [("id", JStr "user-7");
                                          ("display_name", JStr "Bob")];
                                   JDict [("id", JStr "user-42")]])])])
       = Ok (ids1 ++ ids2)%list.
Proof.
  apply (assignee_lists_keep_order _ updated_by_sole_assignee assigned_by_id_only
           [JDict [("id", JStr "user-7"); ("display_name", JStr "Bob")]]
           [JDict [("id", JStr "user-42")]]);
    apply value_at_some; reflexivity.
Defined.

(** ** The gates of an update *)

Lemma lower_char_idempotent (c : ascii) : lower_char (lower_char c) = lower_char c.
Proof. destruct c as [[] [] [] [] [] [] [] []]; reflexivity. Qed.

Lemma is_space_lower_char (c : ascii) : is_space (lower_char c) = is_space c.
Proof. destruct c as [[] [] [] [] [] [] [] []]; reflexivity. Qed.

Lemma lower_idempotent (s : string) : lower (lower s) = lower s.
Proof.
  induction s as [|c r IH]; [reflexivity|].
  simpl. rewrite lower_char_idempotent, IH. reflexivity.
Qed.

Lemma lstrip_lower (s : string) : lstrip (lower s) = lower (lstrip s).
Proof.
  induction s as [|c r IH]; [reflexivity|].
  simpl. rewrite is_space_lower_char. destruct (is_space c); [exact IH | reflexivity].
Qed.

Lemma rstrip_lower (s : string) : rstrip (lower s) = lower (rstrip s).
Proof.
  induction s as [|c r IH]; [reflexivity|].
  simpl. rewrite IH, is_space_lower_char.
  destruct (rstrip r); simpl; [destruct (is_space c)|]; reflexivity.
Qed.

Lemma strip_lower (s : string) : strip (lower s) = lower (strip s).
Proof. unfold strip. rewrite lstrip_lower, rstrip_lower. reflexivity. Qed.

(** The field the third gate looks up is trimmed and in lower case. *)
Lemma changed_field_normal (payload : json) :
  lower (changed_field payload) = changed_field payload
  /\ strip (changed_field payload) = changed_field payload.
Proof.
  unfold changed_field. split; [apply lower_idempotent|].
  rewrite strip_lower, strip_idempotent. reflexivity.
Qed.

Lemma mem_In (x : string) (l : list string) : mem x l = true <-> In x l.
Proof.
  unfold mem. rewrite existsb_exists. split.
  - intros [y [Hin Heq]]. apply String.eqb_eq in Heq. subst y. exact Hin.
  - intros Hin. exists x. split; [exact Hin | apply String.eqb_refl].
Qed.

(** X17.  With [issue_updated_notification_fields] empty or unset, every
    update is suppressed, whatever the payload and the two switches. *)
Theorem no_notified_field_suppresses_all :
  forall (config : Config) (payload : json),
    config_get (issue_updated_notification_fields config) [] = [] ->
    snd (handle_issue_updated config payload) = Ok None.
Proof.
  intros config payload H. rewrite handle_issue_updated_eq.
  destruct (gate_no_assignees config payload); [reflexivity|].
  destruct (gate_actor_is_sole config payload); [reflexivity|].
  unfold gate_field. rewrite H. reflexivity.
Qed.

Lemma no_notified_field_suppresses_all_witness :
  snd (handle_issue_updated (settings [])
         (due_date_moved (JDict [("assignees",
                                   JList [JDict [("display_name", JStr "Alice")]])])))
  = Ok None.
Proof.
  apply (no_notified_field_suppresses_all (settings [])). reflexivity.
Defined.

(** X18.  The changed field is trimmed and lower-cased before it is looked
    up, the configured fields are not: a configured field that holds an
    upper-case letter or a blank at either end matches no update, so a
    configuration made only of such fields suppresses every update. *)
Theorem unnormalised_fields_never_match :
  forall (config : Config) (payload : json),
    (forall field,
        In field (config_get (issue_updated_notification_fields config) []) ->
        lower field <> field \/ strip field <> field) ->
    snd (handle_issue_updated config payload) = Ok None.
Proof.
  intros config payload H. rewrite handle_issue_updated_eq.
  destruct (gate_no_assignees config payload); [reflexivity|].
  destruct (gate_actor_is_sole config payload); [reflexivity|].
  unfold gate_field.
  destruct (mem (changed_field payload)
                (config_get (issue_updated_notification_fields config) [])) eqn:E;
    [|reflexivity].
  apply mem_In in E. destruct (changed_field_normal payload) as [Hl Hs].
  destruct (H _ E) as [Hn|Hn]; contradiction.
Qed.

Lemma unnormalised_fields_never_match_witness :
  snd (handle_issue_updated (settings ["Target_Date"; "target_date "])
         (due_date_moved (JDict [("assignees",
                                   JList [JDict [("display_name", JStr "Alice")]])])))
  = Ok None.
Proof.
  apply (unnormalised_fields_never_match (settings ["Target_Date"; "target_date "])).
  intros field H. simpl in H.
  destruct H as [H | [H | H]]; [subst field; left | subst field; right | destruct H];
    discriminate.
Defined.

(** X19.  With [send_notification_when_actor_is_sole_assignee] off or unset,
    an update made by the one assignee of the issue is never notified,
    whatever field changed and whatever the other settings are. *)
Theorem sole_actor_update_is_suppressed :
  forall (config : Config) (payload : json),
    is_actor_sole_assignee payload = Ok true ->
    config_get (send_notification_when_actor_is_sole_assignee config) false = false ->
    snd (handle_issue_updated config payload) = Ok None.
Proof.
  intros config payload Hsole Hoff.
  rewrite is_actor_sole_assignee_eq in Hsole. apply ok_inj in Hsole.
  rewrite handle_issue_updated_eq.
  destruct (gate_no_assignees config payload); [reflexivity|].
  unfold gate_actor_is_sole, actor_is_sole. rewrite Hsole, Hoff. reflexivity.
Qed.

Lemma sole_actor_update_is_suppressed_witness :
  snd (handle_issue_updated (settings ["priority"]) updated_by_sole_assignee) = Ok None.
Proof.
  apply (sole_actor_update_is_suppressed (settings ["priority"])
           updated_by_sole_assignee); reflexivity.
Defined.

(** X20.  With both switches on, the field alone decides: an update is
    notified exactly when its changed field, trimmed and lower-cased, is one
    of the configured fields; an update without a changed field is looked
    up as the empty field name. *)
Theorem switches_on_field_decides :
  forall (config : Config) (payload : json),
    send_notification_with_no_assignees config = Some true ->
    send_notification_when_actor_is_sole_assignee config = Some true ->
    exists field,
      get_activity_value_from_payload payload "field" = Ok field
      /\ ((exists message, snd (handle_issue_updated config payload) = Ok (Some message))
          <-> In (lower (strip (or_default field "")))
                 (config_get (issue_updated_notification_fields config) []))
      /\ (snd (handle_issue_updated config payload) = Ok None
          <-> ~ In (lower (strip (or_default field "")))
                   (config_get (issue_updated_notification_fields config) [])).
Proof.
  intros config payload Hno Hsole.
  rewrite get_activity_value_eq. eexists. split; [reflexivity|].
  rewrite or_default_shown. fold (changed_field payload).
  rewrite handle_issue_updated_eq.
  unfold gate_no_assignees, gate_actor_is_sole. rewrite Hno, Hsole.
  cbn [config_get negb]. rewrite !andb_false_r.
  unfold gate_field. rewrite <- mem_In.
  destruct (mem (changed_field payload)
                (config_get (issue_updated_notification_fields config) []));
    cbn [negb snd]; (split; [split|split]).
  - reflexivity.
  - eauto.
  - discriminate.
  - intros H. exfalso. apply H. reflexivity.
  - intros [m Hm]. discriminate.
  - discriminate.
  - intros _ H. discriminate.
  - reflexivity.
Qed.

Lemma switches_on_field_decides_witness :
  exists field,
    get_activity_value_from_payload updated_by_sole_assignee "field" = Ok field
    /\ ((exists message,
            snd (handle_issue_updated
                   {| room_id := "!room:example.org"; secret := "secret";
                      workspace_url := "https://x";
                      send_notification_with_no_assignees := Some true;
                      send_notification_when_actor_is_sole_assignee := Some true;
                      issue_updated_notification_fields := Some ["priority"] |}
                   updated_by_sole_assignee) = Ok (Some message))
        <-> In (lower (strip (or_default field ""))) ["priority"])
    /\ (snd (handle_issue_updated
               {| room_id := "!room:example.org"; secret := "secret";
                  workspace_url := "https://x";
                  send_notification_with_no_assignees := Some true;
                  send_notification_when_actor_is_sole_assignee := Some true;
                  issue_updated_notification_fields := Some ["priority"] |}
               updated_by_sole_assignee) = Ok None
        <-> ~ In (lower (strip (or_default field ""))) ["priority"]).
Proof.
  apply (switches_on_field_decides
           {| room_id := "!room:example.org"; secret := "secret";
              workspace_url := "https://x";
              send_notification_with_no_assignees := Some true;
              send_notification_when_actor_is_sole_assignee := Some true;
              issue_updated_notification_fields := Some ["priority"] |}
           updated_by_sole_assignee); reflexivity.
Defined.

(** ** Routing *)

Lemma py_get_dict (d : list (string * json)) (key : string) :
  py_get (JDict d) key
  = Ok (match dict_get d key with Some v => v | None => JNull end).
Proof. unfold py_get. destruct (dict_get d key); reflexivity. Qed.

Lemma eq_str_exclusive (v : json) (s t : string) :
  s <> t -> eq_str v s = true -> eq_str v t = false.
Proof.
  destruct v; try discriminate. simpl. intros Hne Hs.
  apply String.eqb_eq in Hs. subst s0. apply String.eqb_neq. exact Hne.
Qed.

(** What [route] does with a JSON object, pair by pair. *)
Lemma route_dict_eq (config : Config) (d : list (string * json)) :
  route config (JDict d)
  = if eq_str (event_of d) "issue" then
      if eq_str (action_of d) "created" then
        ([Log INFO "Issue created event"],
         Ok (Some (created_message (workspace_url config) (JDict d))))
      else if eq_str (action_of d) "updated" then
        handle_issue_updated config (JDict d)
      else ([], Ok (Some "test"))
    else if eq_str (event_of d) "issue_comment" then
      if eq_str (action_of d) "created" then
        ([Log INFO "Issue comment created event"],
         Ok (Some ("[Comment event]("
                   ++ comment_url (workspace_url config) (JDict d) ++ ")")))
      else ([], Ok (Some "test"))
    else
      ([Log INFO ("Unhandled Plane event_type=" ++ py_str (event_of d))],
       Ok (Some "test")).
Proof.
  unfold route. rewrite !py_get_dict. fold (event_of d). fold (action_of d).
  rewrite !abind_lift_ok.
  destruct (eq_str (event_of d) "issue").
  - destruct (eq_str (action_of d) "created") eqn:Ec.
    + rewrite (eq_str_exclusive _ "created" "updated" ltac:(discriminate) Ec).
      rewrite abind_log, handle_issue_created_eq. reflexivity.
    + rewrite abind_ret.
      destruct (eq_str (action_of d) "updated"); reflexivity.
  - destruct (eq_str (event_of d) "issue_comment").
    + destruct (eq_str (action_of d) "created"); [|reflexivity].
      rewrite abind_log, handle_issue_comment_eq. reflexivity.
    + reflexivity.
Qed.

Lemma route_not_dict (config : Config) (payload : json) :
  (forall d, payload <> JDict d) ->
  route config payload = ([], Raise AttributeError).
Proof.
  intros H. destruct payload; try reflexivity. destruct (H d eq_refl).
Qed.

Lemma route_pairs :
  forall (config : Config) (d : list (string * json)),
    (at_path (JDict d) ["event"] (JStr "issue") ->
     at_path (JDict d) ["action"] (JStr "created") ->
     route config (JDict d)
     = ([Log INFO "Issue created event"],
        Ok (Some (created_message (workspace_url config) (JDict d)))))
    /\ (at_path (JDict d) ["event"] (JStr "issue") ->
        at_path (JDict d) ["action"] (JStr "updated") ->
        route config (JDict d) = handle_issue_updated config (JDict d))
    /\ (at_path (JDict d) ["event"] (JStr "issue_comment") ->
        at_path (JDict d) ["action"] (JStr "created") ->
        route config (JDict d)
        = ([Log INFO "Issue comment created event"],
           Ok (Some ("[Comment event]("
                     ++ comment_url (workspace_url config) (JDict d) ++ ")")))).
Proof.
  intros config d.
  assert (Hev : forall s, at_path (JDict d) ["event"] (JStr s) -> event_of d = JStr s).
  { intros s H. apply value_at_some in H. unfold event_of. simpl in H.
    destruct (dict_get d "event"); [congruence | discriminate]. }
  assert (Hac : forall s, at_path (JDict d) ["action"] (JStr s) -> action_of d = JStr s).
  { intros s H. apply value_at_some in H. unfold action_of. simpl in H.
    destruct (dict_get d "action"); [congruence | discriminate]. }
  repeat split; intros He Ha; rewrite route_dict_eq, (Hev _ He), (Hac _ Ha);
    reflexivity.
Qed.

(** X21.  The dispatch table.  For a JSON object, event [issue] with action
    [created] gives the created-issue message, event [issue] with action
    [updated] gives whatever [handle_issue_updated] decides, and event
    [issue_comment] with action [created] gives the comment message; the
    event and the action are compared as exact strings. *)
Theorem routing_table :
  forall (config : Config) (d : list (string * json)),
    (at_path (JDict d) ["event"] (JStr "issue") ->
     at_path (JDict d) ["action"] (JStr "created") ->
     route config (JDict d)
     = ([Log INFO "Issue created event"],
        Ok (Some (created_message (workspace_url config) (JDict d)))))
    /\ (at_path (JDict d) ["event"] (JStr "issue") ->
        at_path (JDict d) ["action"] (JStr "updated") ->
        route config (JDict d) = handle_issue_updated config (JDict d))
    /\ (at_path (JDict d) ["event"] (JStr "issue_comment") ->
        at_path (JDict d) ["action"] (JStr "created") ->
        route config (JDict d)
        = ([Log INFO "Issue comment created event"],
           Ok (Some ("[Comment event]("
                     ++ comment_url (workspace_url config) (JDict d) ++ ")")))).
Proof. exact route_pairs. Qed.

Lemma routing_table_witness :
  route (settings []) (cleared_by (JStr "user-42") "user-7")
  = handle_issue_updated (settings []) (cleared_by (JStr "user-42") "user-7").
Proof.
  apply (proj1 (proj2 (routing_table (settings []) _)));
    apply value_at_some; reflexivity.
Defined.

(** ** Whole requests *)

Lemma deliver_eq (rt : Runtime) (config : Config) (message : option string) :
  deliver rt config message
  = if truthy message then
      let text := match message with Some m => m | None => "" end in
      match send_markdown rt (room_id config) text "m.text" with
      | None =>
          ([Log INFO ("Sending message (m.text) to room " ++ room_id config
                      ++ ": " ++ text);
            SendMarkdown (room_id config) text "m.text"],
           Ok (json_response [("status", "ok")] 200))
      | Some e =>
          ([Log INFO ("Sending message (m.text) to room " ++ room_id config
                      ++ ": " ++ text);
            SendMarkdown (room_id config) text "m.text";
            Log ERROR ("Failed to send message '" ++ text ++ "' to room "
                       ++ room_id config ++ ": " ++ e)],
           Ok (json_response
                 [("status", "failed to send message");
                  ("error_message",
                    "Failed to send message '" ++ text ++ "' to room "
                    ++ room_id config ++ ": " ++ e)]
                 500))
      end
    else
      ([Log INFO "No message to send. Message contents empty."],
       Ok (json_response [("status", "ok")] 200)).
Proof.
  unfold deliver. destruct (truthy message); [|reflexivity].
  cbn [negb]. cbv zeta. run.
  destruct (send_markdown rt (room_id config) _ "m.text"); run; reflexivity.
Qed.

(** A JSON object is always routed: no exception, log lines only, and no
    message only when [handle_issue_updated] gave none. *)
Lemma route_dict_shape (config : Config) (d : list (string * json)) :
  exists logs message,
    route config (JDict d) = (logs, Ok message)
    /\ existsb sent logs = false
    /\ (truthy message = false
        <-> eq_str (event_of d) "issue" = true
            /\ eq_str (action_of d) "updated" = true
            /\ snd (handle_issue_updated config (JDict d)) = Ok None).
Proof.
  rewrite route_dict_eq.
  destruct (eq_str (event_of d) "issue") eqn:Ei.
  - destruct (eq_str (action_of d) "created") eqn:Ec.
    + eexists. eexists. split; [reflexivity|]. split; [reflexivity|].
      rewrite (eq_str_exclusive _ "created" "updated" ltac:(discriminate) Ec).
      split; [discriminate | intros [_ [H _]]; discriminate].
    + destruct (eq_str (action_of d) "updated") eqn:Eu.
      * rewrite handle_issue_updated_eq.
        destruct (gate_no_assignees config (JDict d));
          [|destruct (gate_actor_is_sole config (JDict d));
            [|destruct (gate_field config (JDict d))]];
          (eexists; eexists; split; [reflexivity|]; split; [reflexivity|];
           split; [intros H; try discriminate H; auto
                  | intros [_ [_ H]]; try discriminate H; reflexivity]).
      * eexists. eexists. split; [reflexivity|]. split; [reflexivity|].
        split; [discriminate | intros [_ [H _]]; discriminate].
  - destruct (eq_str (event_of d) "issue_comment");
      [destruct (eq_str (action_of d) "created")|];
      (eexists; eexists; split; [reflexivity|]; split; [reflexivity|];
       split; [discriminate | intros [H _]; discriminate]).
Qed.

Lemma sends_app (t u : list event) : sends (t ++ u) = sends t + sends u.
Proof. unfold sends. rewrite filter_app, length_app. reflexivity. Qed.

Lemma sends_logs (logs : list event) : existsb sent logs = false -> sends logs = 0.
Proof.
  unfold sends. induction logs as [|ev rest IH]; [reflexivity|].
  simpl. destruct (sent ev); [discriminate | exact IH].
Qed.

(** Every request goes one of the ways of [course]. *)
Lemma webhook_course (rt : Runtime) (config : Config) (request : Request) :
  course rt config request (webhook rt config request).
Proof.
  unfold webhook. rewrite verify_plane_signature_eq.
  destruct (x_plane_signature request) as [signature|] eqn:Hsig.
  - destruct (nonempty signature) eqn:Hne.
    + destruct (isascii signature) eqn:Ha.
      * destruct (String.eqb_spec
                    (Sha256.hexdigest (encode_utf8 (secret config)) (body_bytes request))
                    signature) as [E|E].
        -- assert (Hauth : authentic config request).
           { unfold authentic. rewrite Hsig, E. reflexivity. }
           rewrite abind_lift_ok. cbn [negb].
           destruct (json_loads rt (body_bytes request)) as [payload|e] eqn:Hload.
           ++ rewrite abind_log.
              destruct payload;
                try (unfold dispatch; rewrite route_not_dict by discriminate;
                     apply not_an_object; [exact Hauth | exact Hload | discriminate]).
              destruct (route_dict_shape config d) as [logs [message [Hr [Hl _]]]].
              rewrite (dispatch_eq rt config (JDict d) logs message Hr).
              cbn [fst snd].
              apply routed; assumption.
           ++ destruct e;
                try (apply codec_raised; [exact Hauth | exact Hload | discriminate]).
              apply not_json; assumption.
        -- rewrite abind_lift_ok. cbn [negb]. apply refused.
           unfold authentic. rewrite Hsig. congruence.
      * apply comparison_raised. unfold authentic. rewrite Hsig.
        intros H. apply some_inj in H. subst signature.
        rewrite hexdigest_ascii in Ha. discriminate.
    + rewrite abind_lift_ok. cbn [negb]. apply refused.
      unfold authentic. rewrite Hsig. intros H. apply some_inj in H.
      subst signature. rewrite hexdigest_nonempty in Hne. discriminate.
  - cbn [nonempty]. rewrite abind_lift_ok. cbn [negb]. apply refused.
    unfold authentic. rewrite Hsig. discriminate.
Qed.

Lemma deliver_facts (rt : Runtime) (config : Config) (message : option string) :
  (truthy message = false
   /\ sends (fst (deliver rt config message)) = 0
   /\ outcome (deliver rt config message) = Some NoMessage)
  \/ (exists text,
         message = Some text /\ nonempty text = true
         /\ send_markdown rt (room_id config) text "m.text" = None
         /\ sends (fst (deliver rt config message)) = 1
         /\ In (SendMarkdown (room_id config) text "m.text")
               (fst (deliver rt config message))
         /\ outcome (deliver rt config message) = Some Delivered)
  \/ (exists text e,
         message = Some text /\ nonempty text = true
         /\ send_markdown rt (room_id config) text "m.text" = Some e
         /\ sends (fst (deliver rt config message)) = 1
         /\ In (SendMarkdown (room_id config) text "m.text")
               (fst (deliver rt config message))
         /\ outcome (deliver rt config message)
            = Some (DeliveryFailed
                      ("Failed to send message '" ++ text ++ "' to room "
                       ++ room_id config ++ ": " ++ e))
         /\ exists response,
              snd (deliver rt config message) = Ok response
              /\ status response = 500%Z).
Proof.
  rewrite deliver_eq. destruct message as [text|]; cbn [truthy].
  - destruct (nonempty text) eqn:Hne.
    + cbv zeta.
      destruct (send_markdown rt (room_id config) text "m.text") as [e|] eqn:Hs.
      * right. right. exists text, e. repeat split; try assumption.
        -- simpl. auto.
        -- eexists. split; reflexivity.
      * right. left. exists text. repeat split; try assumption. simpl. auto.
    + left. repeat split.
  - left. repeat split.
Qed.

(** Log lines before the delivery change neither its count nor its outcome. *)
Lemma after_logs (logs trace : list event) (r : result Response) :
  existsb sent logs = false ->
  sends (logs ++ trace) = sends trace
  /\ outcome ((logs ++ trace)%list, r) = outcome (trace, r).
Proof.
  intros H. split.
  - rewrite sends_app, (sends_logs _ H). reflexivity.
  - unfold outcome. destruct r; [|reflexivity].
    rewrite existsb_app, H. reflexivity.
Qed.

Lemma eq_str_at (d : list (string * json)) (key s : string) :
  eq_str (match dict_get d key with Some v => v | None => JNull end) s = true
  <-> at_path (JDict d) [key] (JStr s).
Proof.
  rewrite <- value_at_some. simpl.
  destruct (dict_get d key) as [[]|]; simpl; split; intros H;
    try discriminate.
  - apply String.eqb_eq in H. congruence.
  - apply some_inj in H. injection H as ->. apply String.eqb_refl.
Qed.

(** X22.  For a JSON object the dispatcher ends without a message in one
    case only: the event is [issue], the action is [updated], and
    [handle_issue_updated] suppressed the update.  Every other object leads
    to an attempt to send. *)
Theorem no_message_only_from_suppressed_update :
  forall (rt : Runtime) (config : Config) (d : list (string * json)),
    outcome (dispatch rt config (JDict d)) = Some NoMessage
    <-> at_path (JDict d) ["event"] (JStr "issue")
        /\ at_path (JDict d) ["action"] (JStr "updated")
        /\ snd (handle_issue_updated config (JDict d)) = Ok None.
Proof.
  intros rt config d.
  destruct (route_dict_shape config d) as [logs [message [Hr [Hl Hnone]]]].
  rewrite (dispatch_eq rt config (JDict d) logs message Hr).
  destruct (after_logs logs (fst (deliver rt config message))
              (snd (deliver rt config message)) Hl) as [_ Ho].
  rewrite Ho. rewrite <- surjective_pairing.
  rewrite <- !eq_str_at. fold (event_of d). fold (action_of d).
  rewrite <- Hnone.
  destruct (deliver_facts rt config message)
    as [[Ht [_ Hout]] | [[text [Hm [Hne [_ [_ [_ Hout]]]]]]
                        | [text [e [Hm [Hne [_ [_ [_ [Hout _]]]]]]]]]];
    rewrite Hout; split; intros H; try discriminate H; try assumption; try reflexivity;
    subst message; cbn [truthy] in H; congruence.
Qed.

Lemma sends_one_log (lv : level) (text : string) (trace : list event) :
  sends (Log lv text :: trace) = sends trace.
Proof. reflexivity. Qed.

Lemma outcome_one_log (lv : level) (text : string) (trace : list event)
      (r : result Response) :
  outcome (Log lv text :: trace, r) = outcome (trace, r).
Proof. reflexivity. Qed.

(** X23.  A request hands at most one message to the client, and exactly
    one when it ends delivered or with a failed delivery: there is no second
    attempt.  A failed delivery is answered with status 500, and its reason
    quotes the message, the room and the text of the client's exception. *)
Theorem one_attempt_per_request :
  forall (rt : Runtime) (config : Config) (request : Request),
    sends (fst (webhook rt config request)) <= 1
    /\ (sends (fst (webhook rt config request)) = 1
        <-> outcome (webhook rt config request) = Some Delivered
            \/ exists reason,
                 outcome (webhook rt config request) = Some (DeliveryFailed reason))
    /\ (forall reason,
          outcome (webhook rt config request) = Some (DeliveryFailed reason) ->
          exists text e response,
            In (SendMarkdown (room_id config) text "m.text")
               (fst (webhook rt config request))
            /\ send_markdown rt (room_id config) text "m.text" = Some e
            /\ reason = "Failed to send message '" ++ text ++ "' to room "
                        ++ room_id config ++ ": " ++ e
            /\ snd (webhook rt config request) = Ok response
            /\ status response = 500%Z).
Proof.
  intros rt config request.
  pose proof (webhook_course rt config request) as C.
  remember (webhook rt config request) as run eqn:E. clear E.
  destruct C as [Hn | Hn | Ha Hl | e Ha Hl He | payload Ha Hl Hd
                 | d logs message Ha Hl Hr Hlogs];
    try (cbn [fst snd]; unfold sends; simpl;
         split; [lia|];
         split; [split; [discriminate | intros [H | [reason H]]; discriminate]
                | intros reason H; discriminate]).
  cbn [fst snd].
  destruct (after_logs logs (fst (deliver rt config message))
              (snd (deliver rt config message)) Hlogs) as [Hs Ho].
  rewrite sends_one_log, outcome_one_log, Hs, Ho, <- surjective_pairing.
  destruct (deliver_facts rt config message)
    as [[Ht [Hz Hout]] | [[text [Hm [Hne [Hsend [Hone [Hin Hout]]]]]]
                         | [text [e [Hm [Hne [Hsend [Hone [Hin [Hout Hresp]]]]]]]]]];
    rewrite Hout.
  - rewrite Hz. split; [lia|].
    split; [split; [discriminate | intros [H | [reason H]]; discriminate]|].
    intros reason H. discriminate.
  - rewrite Hone. split; [lia|].
    split; [split; [auto | reflexivity]|].
    intros reason H. discriminate.
  - rewrite Hone. split; [lia|].
    split; [split; [eauto | reflexivity]|].
    intros reason H. apply some_inj in H. injection H as <-.
    destruct Hresp as [response [Hr1 Hr2]].
    exists text, e, response. repeat split; try assumption.
    right. apply in_or_app. right. exact Hin.
Qed.

(** X24.  Without the signature of its body a request leaves no trace: no
    log line and no message, whatever the collaborators are; it is answered
    [unauthorized], or the comparison raised.  So every event of a run, and
    every message sent, belongs to an authentic request. *)
Theorem nothing_happens_without_the_signature :
  forall (rt : Runtime) (config : Config) (request : Request),
    (x_plane_signature request
     <> Some (Sha256.hexdigest (encode_utf8 (secret config)) (body_bytes request)) ->
     fst (webhook rt config request) = []
     /\ (snd (webhook rt config request)
         = Ok (json_response [("status", "unauthorized")] 403)
         \/ snd (webhook rt config request) = Raise TypeError))
    /\ (forall ev,
          In ev (fst (webhook rt config request)) ->
          x_plane_signature request
          = Some (Sha256.hexdigest (encode_utf8 (secret config)) (body_bytes request))).
Proof.
  intros rt config request.
  pose proof (webhook_course rt config request) as C.
  remember (webhook rt config request) as run eqn:E. clear E.
  unfold authentic in C.
  destruct C as [Hn | Hn | Ha Hl | e Ha Hl He | payload Ha Hl Hd
                 | d logs message Ha Hl Hr Hlogs];
    (split; [intros Hno; first [contradiction | split; [reflexivity | auto]]
            | intros ev Hin; first [exact Ha | destruct Hin]]).
Qed.

Lemma webhook_authentic (rt : Runtime) (config : Config) (body : bytes) :
  webhook rt config (signed config body)
  = match json_loads rt body with
    | Raise JSONDecodeError =>
        ([Log WARNING "Invalid JSON from Plane"],
         Ok (json_response [("status", "bad json")] 400))
    | Raise e => ([], Raise e)
    | Ok payload =>
        (Log INFO (json_dumps rt payload) :: fst (dispatch rt config payload),
         snd (dispatch rt config payload))
    end.
Proof.
  unfold webhook, signed. cbn [x_plane_signature body_bytes].
  rewrite verify_own_signature, abind_lift_ok. cbn [negb].
  destruct (json_loads rt body) as [payload|[]]; try reflexivity.
  apply abind_log.
Qed.

(** X25.  After authentication two things make the handler raise instead of
    answering: a body that decodes to JSON other than an object (an array, a
    string, a number, null), which fails on [payload.get] after the payload
    was logged, and a codec error other than [JSONDecodeError], which is not
    caught and leaves nothing in the log. *)
Theorem what_raises_after_authentication :
  forall (rt : Runtime) (config : Config) (body : bytes),
    (forall payload,
        json_loads rt body = Ok payload -> (forall d, payload <> JDict d) ->
        webhook rt config (signed config body)
        = ([Log INFO (json_dumps rt payload)], Raise AttributeError))
    /\ (forall e,
          json_loads rt body = Raise e -> e <> JSONDecodeError ->
          webhook rt config (signed config body) = ([], Raise e)).
Proof.
  intros rt config body. rewrite webhook_authentic. split.
  - intros payload -> Hd. unfold dispatch.
    rewrite (route_not_dict config payload Hd). reflexivity.
  - intros e -> He. destruct e; try reflexivity. congruence.
Qed.

Lemma what_raises_after_authentication_witness :
  webhook (reading (JList []) None) (settings [])
    (signed (settings []) (encode_utf8 "[]"))
  = ([Log INFO "[]"], Raise AttributeError).
Proof.
  apply (proj1 (what_raises_after_authentication
                  (reading (JList []) None) (settings []) (encode_utf8 "[]"))
           (JList [])).
  - reflexivity.
  - discriminate.
Defined.

Lemma handle_issue_updated_one_line (config : Config) (payload : json) :
  exists (line : string) (answer : option string),
    handle_issue_updated config payload = ([Log INFO line], Ok answer).
Proof.
  rewrite handle_issue_updated_eq.
  destruct (gate_no_assignees config payload); [eauto|].
  destruct (gate_actor_is_sole config payload); [eauto|].
  destruct (gate_field config payload); eauto.
Qed.

(** X26.  Handled events, end to end.  An authentic request whose body is a
    JSON object with event [issue] and action [created], or event
    [issue_comment] and action [created], always hands its message to the
    client for the configured room; one with event [issue] and action
    [updated] hands over the update message exactly when
    [handle_issue_updated] returned one. *)
Theorem handled_events_reach_the_room :
  forall (rt : Runtime) (config : Config) (body : bytes) (d : list (string * json)),
    json_loads rt body = Ok (JDict d) ->
    let trace := fst (webhook rt config (signed config body)) in
    (at_path (JDict d) ["event"] (JStr "issue") ->
     at_path (JDict d) ["action"] (JStr "created") ->
     In (SendMarkdown (room_id config)
           (created_message (workspace_url config) (JDict d)) "m.text") trace)
    /\ (at_path (JDict d) ["event"] (JStr "issue_comment") ->
        at_path (JDict d) ["action"] (JStr "created") ->
        In (SendMarkdown (room_id config)
              ("[Comment event](" ++ comment_url (workspace_url config) (JDict d) ++ ")")
              "m.text") trace)
    /\ (at_path (JDict d) ["event"] (JStr "issue") ->
        at_path (JDict d) ["action"] (JStr "updated") ->
        forall message,
          snd (handle_issue_updated config (JDict d)) = Ok (Some message)
          <-> In (SendMarkdown (room_id config) message "m.text") trace).
Proof.
  intros rt config body d Hload trace. subst trace.
  rewrite webhook_authentic, Hload. cbn [fst].
  assert (Hsend : forall logs text,
             route config (JDict d) = (logs, Ok (Some text)) ->
             nonempty text = true ->
             In (SendMarkdown (room_id config) text "m.text")
                (Log INFO (json_dumps rt (JDict d))
                 :: fst (dispatch rt config (JDict d)))).
  { intros logs text Hr Hne.
    rewrite (dispatch_eq rt config (JDict d) logs (Some text) Hr). cbn [fst].
    right. apply in_or_app. right.
    apply (deliver_sends rt config text Hne). }
  destruct (route_pairs config d) as [Hc [Hu Hm]].
  split; [|split].
  - intros He Ha. apply (Hsend _ _ (Hc He Ha)). reflexivity.
  - intros He Ha. apply (Hsend _ _ (Hm He Ha)). reflexivity.
  - intros He Ha message. specialize (Hu He Ha).
    destruct (handle_issue_updated_one_line config (JDict d)) as [line [answer Hh]].
    rewrite Hh in Hu. rewrite Hh. cbn [snd]. split.
    + intros H. apply ok_inj in H. subst answer.
      apply (Hsend _ _ Hu).
      rewrite handle_issue_updated_eq in Hh.
      destruct (gate_no_assignees config (JDict d)); [discriminate|].
      destruct (gate_actor_is_sole config (JDict d)); [discriminate|].
      destruct (gate_field config (JDict d)); [discriminate|].
      injection Hh as _ <-. reflexivity.
    + intros [H|H]; [discriminate|].
      rewrite (dispatch_eq rt config (JDict d) _ answer Hu) in H. cbn [fst] in H.
      apply in_app_or in H. destruct H as [[H|[]]|H]; [discriminate|].
      rewrite deliver_eq in H. destruct answer as [text|]; cbn [truthy] in H.
      * destruct (nonempty text); cbv zeta in H;
          [|destruct H as [H|[]]; discriminate].
        destruct (send_markdown rt (room_id config) text "m.text"); cbn [fst] in H;
          simpl in H; intuition (try discriminate); congruence.
      * destruct H as [H|[]]. discriminate.
Qed.

Lemma handled_events_reach_the_room_witness :
  In (SendMarkdown "!room:example.org"
        (created_message "https://x" created_issue) "m.text")
     (fst (webhook (reading created_issue None) (settings [])
             (signed (settings []) (encode_utf8 "{}")))).
Proof.
  apply (proj1 (handled_events_reach_the_room
                  (reading created_issue None) (settings []) (encode_utf8 "{}")
                  [("event", JStr "issue"); ("action", JStr "created");
                   ("data", JDict [("name", JStr "Fix bug"); ("priority", JStr "High");
                                   ("target_date", JStr "2024-01-01");
                                   ("assignees",
                                     JList [JDict [("display_name", JStr "Alice")]])]);
                   ("activity",
                     JDict [("actor", JDict [("display_name", JStr "Bob")])])]
                  eq_refl));
    apply value_at_some; reflexivity.
Defined.

(** ** Ids that are not strings *)

(** X27.  Ids are treated unevenly.  An assignee id of any JSON type is
    turned into text before it is compared, so the actor is the sole
    assignee exactly when the text of the one assignee id equals the actor
    id; an actor id that is not a string is read as missing, and then
    neither predicate of an update can be true. *)
Theorem ids_are_compared_as_text :
  forall payload : json,
    (forall d v actor,
        at_path payload ["data"; "assignees"] (JList [JDict d]) ->
        dict_get d "id" = Some v ->
        at_path payload ["activity"; "actor"; "id"] (JStr actor) ->
        is_actor_sole_assignee payload = Ok (String.eqb (py_str v) actor))
    /\ ((forall actor, ~ at_path payload ["activity"; "actor"; "id"] (JStr actor)) ->
        is_actor_sole_assignee payload = Ok false
        /\ was_non_actor_sole_assignee_removed payload = Ok false).
Proof.
  intros payload. split.
  - intros d v actor Hl Hv Ha.
    apply value_at_some in Hl. apply string_at_path in Ha.
    rewrite is_actor_sole_assignee_eq, Ha. unfold assignees, listed.
    rewrite Hl. simpl. rewrite Hv. reflexivity.
  - intros Hnone.
    assert (Ha : string_at payload ["activity"; "actor"; "id"] = None).
    { destruct (string_at payload ["activity"; "actor"; "id"]) as [actor|] eqn:E;
        [|reflexivity].
      apply string_at_path in E. destruct (Hnone _ E). }
    rewrite is_actor_sole_assignee_eq, was_non_actor_sole_assignee_removed_eq.
    unfold sole_non_actor_cleared. rewrite Ha. split; [reflexivity|].
    destruct (previous_sole_id payload); cbn [truthy andb];
      rewrite andb_false_r; reflexivity.
Qed.

Lemma ids_are_compared_as_text_witness :
  is_actor_sole_assignee (numbered (JStr "7")) = Ok (String.eqb (py_str (JInt 7)) "7")
  /\ (is_actor_sole_assignee (numbered (JInt 7)) = Ok false
      /\ was_non_actor_sole_assignee_removed (numbered (JInt 7)) = Ok false).
Proof.
  split.
  - apply (proj1 (ids_are_compared_as_text (numbered (JStr "7")))
             [("id", JInt 7)] (JInt 7) "7").
    + apply value_at_some. reflexivity.
    + reflexivity.
    + apply string_at_path. reflexivity.
  - apply (proj2 (ids_are_compared_as_text (numbered (JInt 7)))).
    intros actor H. apply string_at_path in H. discriminate.
Defined.

(** ** The further properties at concrete inputs *)

Lemma get_nested_value_composes_witness :
  _get_nested_value (cleared_by (JStr "user-42") "user-7")
    (["activity"; "actor"] ++ ["id"])%list (Some (Class TStr)) JNull
  = _get_nested_value (JDict [("id", JStr "user-7"); ("display_name", JStr "Bob")])
      ["id"] (Some (Class TStr)) JNull.
Proof.
  apply (proj1 (get_nested_value_composes (cleared_by (JStr "user-42") "user-7")
                  ["activity"; "actor"] ["id"] (Some (Class TStr)) JNull)).
  apply value_at_some. reflexivity.
Defined.

Lemma nothing_happens_without_the_signature_witness :
  fst (webhook stand_in (settings [])
         {| body_bytes := unhandled_body; x_plane_signature := Some "sha256=00" |})
  = []
  /\ (snd (webhook stand_in (settings [])
             {| body_bytes := unhandled_body;
                x_plane_signature := Some "sha256=00" |})
      = Ok (json_response [("status", "unauthorized")] 403)
      \/ snd (webhook stand_in (settings [])
                {| body_bytes := unhandled_body;
                   x_plane_signature := Some "sha256=00" |})
         = Raise TypeError).
Proof.
  apply (proj1 (nothing_happens_without_the_signature stand_in (settings [])
                  {| body_bytes := unhandled_body;
                     x_plane_signature := Some "sha256=00" |})).
  vm_compute. discriminate.
Defined.

Example created_issue_is_delivered :
  webhook (reading created_issue None) (settings [])
    (signed (settings []) (encode_utf8 "{}"))
  = ([Log INFO (py_repr created_issue);
      Log INFO "Issue created event";
      Log INFO ("Sending message (m.text) to room !room:example.org: "
                ++ created_message "https://x" created_issue);
      SendMarkdown "!room:example.org"
        (created_message "https://x" created_issue) "m.text"],
     Ok (json_response [("status", "ok")] 200)).
Proof. vm_compute. reflexivity. Qed.

Example failed_delivery_is_reported :
  outcome (webhook (reading unhandled_event (Some "M_FORBIDDEN")) (settings [])
             (signed (settings []) unhandled_body))
  = Some (DeliveryFailed
            "Failed to send message 'test' to room !room:example.org: M_FORBIDDEN").
Proof. vm_compute. reflexivity. Qed.
